(** * Brand Guardian: the two-stage audit pipeline

    A shallow embedding of
      - [backend/src/services/video_indexer.py] (class [VideoIndexerService]),
      - [backend/src/graph/nodes.py] ([index_video_node], [audio_content_node]),
      - [backend/src/graph/workflow.py] (the two-node graph) and the part of
        [backend/src/api/server.py] that reads the final state,
    followed by the properties of the pipeline.

    Python dictionaries are finite maps with string keys, Python values are
    the dynamically typed values that [json.loads] can produce, and every
    call that leaves the process (HTTP, the credential, the downloader, the
    vector index, the language model) is answered by a [World] and recorded
    in a trace. *)

From Stdlib Require Import ZArith Ascii String List Bool Lia.
From stdpp Require Import gmap strings list fin_maps pretty.

Set Warnings "-register-all".
Open Scope string_scope.

(** ** Python values *)

(** What [json.loads] returns, which is also everything the state dictionary
    of the graph ever holds.  A float [m * 10^e] keeps mantissa and exponent:
    the code only ever tests it for truth. *)
Inductive value : Type :=
| VNone
| VBool (b : bool)
| VInt (z : Z)
| VFloat (m e : Z)
| VStr (s : string)
| VList (l : list value)
| VDict (d : gmap string value).

(** A Python [dict] with [str] keys. *)
Abbreviation dict := (gmap string value).

(** [type(v).__name__], as it appears in the messages of the interpreter. *)
Definition type_name (v : value) : string :=
  match v with
  | VNone => "NoneType"
  | VBool _ => "bool"
  | VInt _ => "int"
  | VFloat _ _ => "float"
  | VStr _ => "str"
  | VList _ => "list"
  | VDict _ => "dict"
  end.

(** [bool(v)]: the truth value that [if v] and [not v] test. *)
Definition truthy (v : value) : bool :=
  match v with
  | VNone => false
  | VBool b => b
  | VInt z => negb (z =? 0)%Z
  | VFloat m _ => negb (m =? 0)%Z
  | VStr s => negb (String.eqb s "")
  | VList l => match l with [] => false | _ => true end
  | VDict d => negb (bool_decide (d = ∅))
  end.

(** ** Exceptions and results *)

(** An exception: its class and [str(e)].  Every class that occurs is a
    subclass of [Exception], so [except Exception] catches all of them. *)
Inductive exn : Type := Exn (cls : string) (msg : string).

Definition str_exn (e : exn) : string := let 'Exn _ m := e in m.

(** [raise Exception(msg)], the only [raise] the repository writes. *)
Definition Exception (msg : string) : exn := Exn "Exception" msg.

(** The outcome of one library call: raised, or returned. *)
Definition result (A : Type) : Type := exn + A.

(** ** Strings *)

(** The double quote, for the JSON texts below. *)
Definition dq : string := String "034" "".

(** [needle in hay] on two [str]. *)
Fixpoint str_contains (needle hay : string) : bool :=
  String.prefix needle hay
  || match hay with
     | EmptyString => false
     | String _ rest => str_contains needle rest
     end.

(** [s] without the prefix [p], when it starts with [p]. *)
Fixpoint drop_prefix (p s : string) : option string :=
  match p, s with
  | EmptyString, _ => Some s
  | String a p', String b s' =>
      if Ascii.eqb a b then drop_prefix p' s' else None
  | String _ _, EmptyString => None
  end.

(** [c.isspace()] for a character below 256. *)
Definition is_py_space (c : ascii) : bool :=
  let n := nat_of_ascii c in
  (((9 <=? n) && (n <=? 13)) || ((28 <=? n) && (n <=? 32))
  || (n =? 133) || (n =? 160))%nat.

Fixpoint lstrip (s : string) : string :=
  match s with
  | String c rest => if is_py_space c then lstrip rest else s
  | EmptyString => EmptyString
  end.

(** [s.strip()]: [rstrip] is [lstrip] on the reversed string. *)
Definition py_strip (s : string) : string :=
  String.rev (lstrip (String.rev (lstrip s))).

(** [sep.join(items)] on a list of [str]. *)
Fixpoint str_join (sep : string) (items : list string) : string :=
  match items with
  | [] => ""
  | [s] => s
  | s :: rest => s ++ sep ++ str_join sep rest
  end.

(** [sep.join(v)] on a value: a [TypeError] names the first item that is not
    a [str]; a [str] is iterated by character and comes back interleaved. *)
Fixpoint join_items (i : nat) (items : list value) : result (list string) :=
  match items with
  | [] => inr []
  | VStr s :: rest =>
      match join_items (S i) rest with
      | inl e => inl e
      | inr ss => inr (s :: ss)
      end
  | v :: _ =>
      inl (Exn "TypeError"
             ("sequence item " ++ pretty i ++ ": expected str instance, "
              ++ type_name v ++ " found"))
  end.

Definition chars (s : string) : list string :=
  (fun c => String c "") <$> list_ascii_of_string s.

Definition py_join (sep : string) (v : value) : result string :=
  match v with
  | VList l =>
      match join_items 0 l with
      | inl e => inl e
      | inr ss => inr (str_join sep ss)
      end
  | VStr s => inr (str_join sep (chars s))
  | VDict d => inr (str_join sep (map_to_list d).*1)
  | _ => inl (Exn "TypeError" "can only join an iterable")
  end.

(** The newline, for ["\n\n".join]. *)
Definition nl : string := String "010" "".

(** ** Operations of the interpreter on values *)

(** [v.get(key, dflt)]: only a [dict] has the method. *)
Definition py_get (v : value) (key : string) (dflt : value) : result value :=
  match v with
  | VDict d => inr (default dflt (d !! key))
  | _ => inl (Exn "AttributeError"
                ("'" ++ type_name v ++ "' object has no attribute 'get'"))
  end.

(** [v[key]] with a [str] key. *)
Definition py_getitem (v : value) (key : string) : result value :=
  match v with
  | VDict d =>
      match d !! key with
      | Some x => inr x
      | None => inl (Exn "KeyError" ("'" ++ key ++ "'"))
      end
  | VList _ =>
      inl (Exn "TypeError" "list indices must be integers or slices, not str")
  | VStr _ =>
      inl (Exn "TypeError" "string indices must be integers, not 'str'")
  | _ => inl (Exn "TypeError"
                ("'" ++ type_name v ++ "' object is not subscriptable"))
  end.

(** [iter(v)], the items a [for] loop visits. *)
Definition py_iter (v : value) : result (list value) :=
  match v with
  | VList l => inr l
  | VStr s => inr (VStr <$> chars s)
  | VDict d => inr (VStr <$> (map_to_list d).*1)
  | _ => inl (Exn "TypeError"
                ("'" ++ type_name v ++ "' object is not iterable"))
  end.

(** [v == s] for a [str] literal [s]. *)
Definition is_str (v : value) (s : string) : bool :=
  match v with
  | VStr t => String.eqb t s
  | _ => false
  end.

(** [needle in v] for a [str] literal [needle]. *)
Definition py_in (needle : string) (v : value) : result bool :=
  match v with
  | VStr s => inr (str_contains needle s)
  | VList l => inr (existsb (fun x => is_str x needle) l)
  | VDict d => inr (bool_decide (is_Some (d !! needle)))
  | _ => inl (Exn "TypeError"
                ("argument of type '" ++ type_name v ++ "' is not iterable"))
  end.

(** ** The outside world *)

(** A [requests.Response]: what the code reads of it. *)
Record response : Type := Response {
  status_code : Z;
  text : string;
  json : result value            (* [response.json()] *)
}.

(** Where a [requests.post] goes and what it carries. *)
Inductive post_target : Type :=
| GenerateAccessToken                           (* management.azure.com *)
| UploadVideo (access_token video_name : value). (* api.videoindexer.ai *)

(** The calls that leave the process, with the arguments that vary.  The
    f-strings that build URLs and prompts are kept as the values they
    interpolate. *)
Inductive event : Type :=
| EvGetToken
| EvDownload (youtube_url : value) (output_path : string)
| EvPost (target : post_target)
| EvOpen (path : string)
| EvRemove (path : string)
| EvGet (video_id : value)
| EvSleep (seconds : Z)
| EvSearch (transcript : value) (ocr : string) (k : Z)
| EvLLM (retrieved_rules : string) (video_metadata transcript ocr_text : value).

(** The answers of the outside.  [http_get] is the sequence of replies to
    the successive polls; everything else answers by its arguments. *)
Record World : Type := {
  getenv : string -> option string;
  new_credential : result unit;              (* DefaultAzureCredential() *)
  credential_token : result string;          (* get_token(scope).token *)
  ydl_download : value -> string -> result unit;
  http_post : post_target -> result response;
  http_get : list (result response);
  open_rb : string -> result unit;
  path_exists : string -> bool;
  os_remove : string -> result unit;
  azure_clients : result unit;  (* AzureChatOpenAI, embeddings, AzureSearch *)
  similarity_search : value -> string -> Z -> result (list string);
  llm_invoke : string -> value -> value -> value -> result string
}.

(** The same world with another sequence of poll replies. *)
Definition with_polls (w : World) (replies : list (result response)) : World :=
  {| getenv := getenv w; new_credential := new_credential w;
     credential_token := credential_token w; ydl_download := ydl_download w;
     http_post := http_post w; http_get := replies; open_rb := open_rb w;
     path_exists := path_exists w; os_remove := os_remove w;
     azure_clients := azure_clients w;
     similarity_search := similarity_search w; llm_invoke := llm_invoke w |}.

(** ** Executions *)

(** How a piece of code ends: it returns, it raises, or it is still inside
    the polling loop when the replies of the world are used up. *)
Inductive outcome (A : Type) : Type :=
| Ret (a : A)
| Raise (e : exn)
| Polling.
Arguments Ret {A} a.
Arguments Raise {A} e.
Arguments Polling {A}.

(** An execution: its outcome and the calls it made, in order. *)
Definition exec (A : Type) : Type := outcome A * list event.

Definition ret {A} (a : A) : exec A := (Ret a, []).
Definition raise {A} (e : exn) : exec A := (Raise e, []).
Definition emit (ev : event) : exec unit := (Ret tt, [ev]).

Definition lift {A} (r : result A) : exec A :=
  match r with
  | inl e => raise e
  | inr a => ret a
  end.

Definition bind {A B} (m : exec A) (k : A -> exec B) : exec B :=
  match m with
  | (Ret a, t) => let '(o, t') := k a in (o, (t ++ t')%list)
  | (Raise e, t) => (Raise e, t)
  | (Polling, t) => (Polling, t)
  end.

(** [try: m  except Exception as e: h e]. *)
Definition try_except {A} (m : exec A) (h : exn -> exec A) : exec A :=
  match m with
  | (Raise e, t) => let '(o, t') := h e in (o, (t ++ t')%list)
  | other => other
  end.

Declare Scope exec_scope.
Delimit Scope exec_scope with exec.
Notation "x <- m ;; k" := (bind m (fun x => k))
  (at level 100, m at next level, right associativity) : exec_scope.
Notation "m ;; k" := (bind m (fun _ => k))
  (at level 100, right associativity) : exec_scope.
Open Scope exec_scope.

(** The calls of an execution that reach the language model. *)
Definition is_llm_call (ev : event) : bool :=
  match ev with
  | EvLLM _ _ _ _ => true
  | _ => false
  end.

Definition llm_calls {A} (m : exec A) : nat :=
  length (filter (fun ev => is_llm_call ev = true) m.2).

(** An execution that makes no call to the language model. *)
Definition quiet {A} (m : exec A) : Prop := llm_calls m = 0.

(** [after pre m]: the execution [m] once the calls [pre] have been made. *)
Definition after {A} (pre : list event) (m : exec A) : exec A :=
  (m.1, (pre ++ m.2)%list).

(** The polls of an execution. *)
Definition is_poll (ev : event) : bool :=
  match ev with
  | EvGet _ => true
  | _ => false
  end.

Definition polls {A} (m : exec A) : nat :=
  length (filter (fun ev => is_poll ev = true) m.2).

(** ** [video_indexer.py]: class [VideoIndexerService] *)

Record VideoIndexerService : Type := {
  account_id : option string;
  location : option string;
  subscription_id : option string;
  resource_group : option string;
  vi_name : option string;
  arm_token : option string;      (* [None], or the cached ARM token *)
  vi_token : value                (* [None], or the cached account token *)
}.

Definition set_arm_token (self : VideoIndexerService) (t : string) :=
  {| account_id := account_id self; location := location self;
     subscription_id := subscription_id self;
     resource_group := resource_group self; vi_name := vi_name self;
     arm_token := Some t; vi_token := vi_token self |}.

Definition set_vi_token (self : VideoIndexerService) (t : value) :=
  {| account_id := account_id self; location := location self;
     subscription_id := subscription_id self;
     resource_group := resource_group self; vi_name := vi_name self;
     arm_token := arm_token self; vi_token := t |}.

(** The truth value of what [os.getenv] returns. *)
Definition env_set (v : option string) : bool :=
  match v with
  | Some s => negb (String.eqb s "")
  | None => false
  end.

(** [VideoIndexerService()]. *)
Definition new_service (w : World) : exec VideoIndexerService :=
  let a := getenv w "AZURE_VI_ACCOUNT_ID" in
  let l := getenv w "AZURE_VI_LOCATION" in
  let s := getenv w "AZURE_SUBSCRIPTION_ID" in
  let r := getenv w "AZURE_RESOURCE_GROUP" in
  let n := getenv w "AZURE_VI_NAME" in
  if negb (forallb env_set [a; l; s; r; n]) then
    raise (Exception "Missing Azure Video Indexer environment variables")
  else
    lift (new_credential w) ;;
    ret {| account_id := a; location := l; subscription_id := s;
           resource_group := r; vi_name := n;
           arm_token := None; vi_token := VNone |}.

(** [get_access_token]: the handler logs and re-raises. *)
Definition get_access_token (w : World) (self : VideoIndexerService)
  : exec (string * VideoIndexerService) :=
  if env_set (arm_token self) then
    ret (default "" (arm_token self), self)
  else
    try_except
      (emit EvGetToken ;;
       token <- lift (credential_token w) ;;
       ret (token, set_arm_token self token))
      (fun e => raise e).

(** [get_account_token]. *)
Definition get_account_token (w : World) (self : VideoIndexerService)
  : exec (value * VideoIndexerService) :=
  if truthy (vi_token self) then
    ret (vi_token self, self)
  else
    r <- get_access_token w self ;;
    let self := r.2 in
    emit (EvPost GenerateAccessToken) ;;
    response <- lift (http_post w GenerateAccessToken) ;;
    if negb (status_code response =? 200)%Z then
      raise (Exception ("Failed to get VI account token: " ++ text response))
    else
      data <- lift (json response) ;;
      token <- lift (py_getitem data "accessToken") ;;
      ret (token, set_vi_token self token).

(** [download_youtube_video]. *)
Definition download_youtube_video (w : World) (youtube_url : value)
    (output_path : string) : exec string :=
  try_except
    (emit (EvDownload youtube_url output_path) ;;
     lift (ydl_download w youtube_url output_path) ;;
     ret output_path)
    (fun e => raise (Exception ("YouTube download failed: " ++ str_exn e))).

(** [upload_video]. *)
Definition upload_video (w : World) (self : VideoIndexerService)
    (video_path : string) (video_name : value)
  : exec (value * VideoIndexerService) :=
  r <- get_account_token w self ;;
  let vi_token := r.1 in
  let self := r.2 in
  emit (EvOpen video_path) ;;
  lift (open_rb w video_path) ;;
  emit (EvPost (UploadVideo vi_token video_name)) ;;
  response <- lift (http_post w (UploadVideo vi_token video_name)) ;;
  if negb (status_code response =? 200)%Z then
    raise (Exception ("Upload failed: " ++ text response))
  else
    data <- lift (json response) ;;
    video_id <- lift (py_get data "id" VNone) ;;
    if negb (truthy video_id) then
      raise (Exception "Upload succeeded but no video ID returned")
    else
      ret (video_id, self).

(** The [while True] loop of [wait_for_processing], one iteration for each
    reply of the world. *)
Fixpoint poll_loop (video_id : value) (replies : list (result response))
  : exec value :=
  match replies with
  | [] => (Polling, [])
  | reply :: later =>
      emit (EvGet video_id) ;;
      response <- lift reply ;;
      if negb (status_code response =? 200)%Z then
        raise (Exception ("Failed to get status: " ++ text response))
      else
        data <- lift (json response) ;;
        state <- lift (py_get data "state" VNone) ;;
        if is_str state "Processed" then ret data
        else if is_str state "Failed" then
          raise (Exception "Video indexing failed")
        else if is_str state "Quarantined" then
          raise (Exception "Video quarantined")
        else
          emit (EvSleep 30) ;;
          poll_loop video_id later
  end.

(** [wait_for_processing]. *)
Definition wait_for_processing (w : World) (self : VideoIndexerService)
    (video_id : value) : exec value :=
  get_account_token w self ;;
  poll_loop video_id (http_get w).

(** [for x in fragments: acc.append(x.get("text", ""))]: what is appended. *)
Fixpoint texts_of (fragments : list value) : exec (list value) :=
  match fragments with
  | [] => ret []
  | x :: rest =>
      t <- lift (py_get x "text" (VStr "")) ;;
      ts <- texts_of rest ;;
      ret (t :: ts)
  end.

(** The outer [for video in videos] of [extract_data], threading the two
    accumulators [transcript] and [ocr]. *)
Fixpoint collect (videos : list value) (transcript ocr : list value)
  : exec (list value * list value) :=
  match videos with
  | [] => ret (transcript, ocr)
  | video :: rest =>
      insights <- lift (py_get video "insights" (VDict ∅)) ;;
      tf <- lift (py_get insights "transcript" (VList [])) ;;
      tl <- lift (py_iter tf) ;;
      ts <- texts_of tl ;;
      ofr <- lift (py_get insights "ocr" (VList [])) ;;
      ol <- lift (py_iter ofr) ;;
      os <- texts_of ol ;;
      collect rest (transcript ++ ts)%list (ocr ++ os)%list
  end.

(** [extract_data]. *)
Definition extract_data (vi_json : value) : exec dict :=
  videos <- lift (py_get vi_json "videos" (VList [])) ;;
  vl <- lift (py_iter videos) ;;
  acc <- collect vl [] [] ;;
  joined <- lift (py_join " " (VList acc.1)) ;;
  summarized <- lift (py_get vi_json "summarizedInsights" (VDict ∅)) ;;
  duration <- lift (py_get summarized "duration" VNone) ;;
  video_id <- lift (py_get vi_json "id" VNone) ;;
  ret ({[ "transcript" := VStr joined;
          "ocr_text" := VList acc.2;
          "metadata" := VDict {[ "duration" := duration;
                                 "video_id" := video_id;
                                 "platform" := VStr "youtube" ]} ]} : dict).

(** ** [nodes.py] *)

(** [(.?)```] at the head of [s], greedy: one character (any one, the flag
    is [re.DOTALL]) is tried before none.  Returns group 1. *)
Definition fence_tail (s : string) : option string :=
  match s with
  | String c rest =>
      if String.prefix "```" rest then Some (String c "")
      else if String.prefix "```" s then Some ""
      else None
  | EmptyString => None
  end.

(** The pattern [```(?:json)?(.?)```] matched at the head of [s]: the
    optional [json] is tried present before absent. *)
Definition fence_match_here (s : string) : option string :=
  match drop_prefix "```" s with
  | None => None
  | Some s1 =>
      match from_option fence_tail None (drop_prefix "json" s1) with
      | Some g => Some g
      | None => fence_tail s1
      end
  end.

(** [re.search(r"```(?:json)?(.?)```", s, re.DOTALL)]: the leftmost
    position where the pattern matches; [None] when there is none.
    The value is [.group(1)] of the match. *)
Fixpoint re_search_fence (s : string) : option string :=
  match fence_match_here s with
  | Some g => Some g
  | None =>
      match s with
      | EmptyString => None
      | String _ rest => re_search_fence rest
      end
  end.

(** The report of the short circuit of [audio_content_node]. *)
Definition skipped_report : string :=
  "Audit skipped because video processing failed (No transcript)".

Definition local_filename : string := "temp_audit_video.mp4".

(** [index_video_node], the body of its [try]. *)
Definition index_video_body (w : World) (state : dict) : exec dict :=
  let video_url := default VNone (state !! "video_url") in
  let video_id_input := default (VStr "vid_demo") (state !! "video_id") in
  vi_service <- new_service w ;;
  a <- lift (py_in "youtube.com" video_url) ;;
  b <- (if a then ret true else lift (py_in "youtu.be" video_url)) ;;
  local_path <- (if b then download_youtube_video w video_url local_filename
                 else raise (Exception
                               "Please provide a valid URL for this test.")) ;;
  up <- upload_video w vi_service local_path video_id_input ;;
  let azure_video_id := up.1 in
  let vi_service := up.2 in
  (if path_exists w local_path then
     emit (EvRemove local_path) ;; lift (os_remove w local_path)
   else ret tt) ;;
  raw_insights <- wait_for_processing w vi_service azure_video_id ;;
  clean_data <- extract_data raw_insights ;;
  ret clean_data.

(** [index_video_node]. *)
Definition index_video_node (w : World) (state : dict) : exec dict :=
  try_except (index_video_body w state)
    (fun e => ret ({[ "errors" := VList [VStr (str_exn e)];
                      "final_status" := VStr "FAIL";
                      "transcript" := VStr "";
                      "ocr_text" := VList [] ]} : dict)).

Section Adjudication.

(** [json.loads], of the standard library: any decoder. *)
Variable json_loads : string -> result value.

(** Lines 118-121 of [nodes.py]: from the content of the reply to the
    decoded [audit_data]. *)
Definition decode_content (content : string) : exec value :=
  content <- (if str_contains "``" content then
                match re_search_fence content with
                | Some g => ret g
                | None => raise (Exn "AttributeError"
                            "'NoneType' object has no attribute 'group'")
                end
              else ret content) ;;
  lift (json_loads (py_strip content)).

(** The [try] of [audio_content_node]. *)
Definition audit_body (w : World) (retrieved_rules : string)
    (video_metadata transcript ocr_text : value) : exec dict :=
  emit (EvLLM retrieved_rules video_metadata transcript ocr_text) ;;
  content <- lift (llm_invoke w retrieved_rules video_metadata
                     transcript ocr_text) ;;
  audit_data <- decode_content content ;;
  compliance_results <-
    lift (py_get audit_data "compliance_results" (VList [])) ;;
  final_status <- lift (py_get audit_data "status" (VStr "FAIL")) ;;
  final_report <-
    lift (py_get audit_data "final_report" (VStr "No report generated")) ;;
  ret ({[ "compliance_results" := compliance_results;
          "final_status" := final_status;
          "final_report" := final_report ]} : dict).

(** [audio_content_node]. *)
Definition audio_content_node (w : World) (state : dict) : exec dict :=
  let transcript := default (VStr "") (state !! "transcript") in
  if negb (truthy transcript) then
    ret ({[ "final_status" := VStr "FAIL";
            "final_report" := VStr skipped_report ]} : dict)
  else
    lift (azure_clients w) ;;
    let ocr_text := default (VList []) (state !! "ocr_text") in
    joined <- lift (py_join "" ocr_text) ;;
    emit (EvSearch transcript joined 3) ;;
    docs <- lift (similarity_search w transcript joined 3) ;;
    let retrieved_rules := str_join (nl ++ nl) docs in
    let video_metadata := default (VDict ∅) (state !! "video_metadata") in
    try_except
      (audit_body w retrieved_rules video_metadata transcript ocr_text)
      (fun e => ret ({[ "errors" := VList [VStr (str_exn e)];
                        "final_status" := VStr "FAIL" ]} : dict)).

(** ** [workflow.py] and [server.py] *)

(** Modelled from the spec: [backend/src/graph/state.py] (the schema
    [VideoAuditState] with its reducers) and the graph runtime that applies
    the dictionary a node returns are not part of the sources.  Section 4.4
    has the orchestrator merge the partial state and never roll it back;
    section 3 has [errors] only ever appended to.  So a key of the update
    replaces the key of the state, [errors] is appended, and a key the
    update does not mention is kept. *)
Definition merge_update (state update : dict) : dict :=
  match update !! "errors", state !! "errors" with
  | Some (VList new), Some (VList old) =>
      <[ "errors" := VList (old ++ new) ]> (update ∪ state)
  | _, _ => update ∪ state
  end.

(** The graph of [create_graph]: [indexer], then [auditor], then [END];
    both edges are unconditional. *)
Definition run_graph (w : World) (inputs : dict) : exec dict :=
  u1 <- index_video_node w inputs ;;
  let s1 := merge_update inputs u1 in
  u2 <- audio_content_node w s1 ;;
  ret (merge_update s1 u2).

(** [initial_inputs] of [audit_video]. *)
Definition initial_inputs (video_url session_id : string) : dict :=
  {[ "video_url" := VStr video_url;
     "video_id" := VStr ("vid_" ++ substring 0 8 session_id);
     "compliance_results" := VList [];
     "errors" := VList [] ]}.

(** The [status] that [audit_video] reads off the final state. *)
Definition response_status (final_state : dict) : value :=
  default (VStr "UNKNOWN") (final_state !! "final_status").

End Adjudication.

(** ** A JSON decoder for the examples *)

(** A recursive-descent decoder of the JSON grammar (objects, arrays,
    strings with the single-character escapes, integers, [true], [false],
    [null]) used to run the pipeline on concrete replies.  The theorems below
    hold for every decoder; this one stands for [json.loads] on the texts of
    the examples, none of which has a fraction, an exponent or a [\u]
    escape (all three are refused here). *)
Module MiniJson.

Definition is_ws (c : ascii) : bool :=
  let n := nat_of_ascii c in
  ((n =? 32) || (n =? 9) || (n =? 10) || (n =? 13))%nat.

Fixpoint skip_ws (s : string) : string :=
  match s with
  | String c rest => if is_ws c then skip_ws rest else s
  | EmptyString => EmptyString
  end.

Definition digit_of (c : ascii) : option Z :=
  let n := nat_of_ascii c in
  if ((48 <=? n) && (n <=? 57))%nat then Some (Z.of_nat n - 48)%Z else None.

(** The digits at the head of [s], accumulated in base ten. *)
Fixpoint digits (s : string) (acc : Z) : Z * string :=
  match s with
  | String c rest =>
      match digit_of c with
      | Some d => digits rest (10 * acc + d)%Z
      | None => (acc, s)
      end
  | EmptyString => (acc, s)
  end.

(** An unsigned integer: [0], or digits that do not start with [0]; a
    fraction or an exponent is refused. *)
Definition unsigned (s : string) : option (Z * string) :=
  match s with
  | String c rest =>
      match digit_of c with
      | None => None
      | Some d =>
          let '(n, rest') := if (d =? 0)%Z then (0%Z, rest)
                             else digits rest d in
          match rest' with
          | String "." _ | String "e" _ | String "E" _ => None
          | _ => Some (n, rest')
          end
      end
  | EmptyString => None
  end.

Definition unescape (c : ascii) : option ascii :=
  match c with
  | "034" => Some "034"%char
  | "\" => Some "\"%char
  | "/" => Some "/"%char
  | "b" => Some "008"%char
  | "f" => Some "012"%char
  | "n" => Some "010"%char
  | "r" => Some "013"%char
  | "t" => Some "009"%char
  | _ => None
  end%char.

(** The body of a string literal, after its opening quote. *)
Fixpoint str_body (s : string) : option (string * string) :=
  match s with
  | EmptyString => None
  | String c rest =>
      if Ascii.eqb c "034" then Some ("", rest)
      else if Ascii.eqb c "\" then
        match rest with
        | String e rest' =>
            match unescape e, str_body rest' with
            | Some ch, Some (body, tl) => Some (String ch body, tl)
            | _, _ => None
            end
        | EmptyString => None
        end
      else if (nat_of_ascii c <? 32)%nat then None
      else
        match str_body rest with
        | Some (body, tl) => Some (String c body, tl)
        | None => None
        end
  end.

Fixpoint parse_value (fuel : nat) (s : string) : option (value * string) :=
  match fuel with
  | O => None
  | S fuel =>
      match skip_ws s with
      | String "[" rest =>
          match skip_ws rest with
          | String "]" tl => Some (VList [], tl)
          | items => parse_elems fuel items []
          end
      | String "{" rest =>
          match skip_ws rest with
          | String "}" tl => Some (VDict ∅, tl)
          | members => parse_members fuel members ∅
          end
      | String "034" rest =>
          match str_body rest with
          | Some (body, tl) => Some (VStr body, tl)
          | None => None
          end
      | String "-" rest =>
          match unsigned rest with
          | Some (n, tl) => Some (VInt (- n), tl)
          | None => None
          end
      | other =>
          match drop_prefix "true" other, drop_prefix "false" other,
                drop_prefix "null" other with
          | Some tl, _, _ => Some (VBool true, tl)
          | _, Some tl, _ => Some (VBool false, tl)
          | _, _, Some tl => Some (VNone, tl)
          | _, _, _ =>
              match unsigned other with
              | Some (n, tl) => Some (VInt n, tl)
              | None => None
              end
          end
      end
  end%char
with parse_elems (fuel : nat) (s : string) (acc : list value)
  : option (value * string) :=
  match fuel with
  | O => None
  | S fuel =>
      match parse_value fuel s with
      | None => None
      | Some (v, rest) =>
          match skip_ws rest with
          | String "," tl => parse_elems fuel tl (acc ++ [v])
          | String "]" tl => Some (VList (acc ++ [v]), tl)
          | _ => None
          end
      end
  end%char
with parse_members (fuel : nat) (s : string) (acc : dict)
  : option (value * string) :=
  match fuel with
  | O => None
  | S fuel =>
      match skip_ws s with
      | String "034" rest =>
          match str_body rest with
          | None => None
          | Some (key, rest1) =>
              match skip_ws rest1 with
              | String ":" rest2 =>
                  match parse_value fuel rest2 with
                  | None => None
                  | Some (v, rest3) =>
                      match skip_ws rest3 with
                      | String "," tl =>
                          parse_members fuel tl (<[ key := v ]> acc)
                      | String "}" tl =>
                          Some (VDict (<[ key := v ]> acc), tl)
                      | _ => None
                      end
                  end
              | _ => None
              end
          end
      | _ => None
      end
  end%char.

(** [json.loads] on the grammar above. *)
Definition loads (s : string) : result value :=
  match parse_value (2 * String.length s + 2) s with
  | Some (v, rest) =>
      match skip_ws rest with
      | EmptyString => inr v
      | _ => inl (Exn "JSONDecodeError" "Extra data")
      end
  | None => inl (Exn "JSONDecodeError" "Expecting value")
  end.

End MiniJson.

(** ** Worlds and texts for the examples *)

Definition ok_response (v : value) : response :=
  {| status_code := 200; text := ""; json := inr v |}.

(** A video indexed with one transcript fragment and one line on screen. *)
Definition demo_payload (state : string) : value :=
  VDict {[ "state" := VStr state;
           "id" := VStr "abc";
           "summarizedInsights" := VDict {[ "duration" := VInt 42 ]};
           "videos" := VList [VDict {[ "insights" := VDict {[
             "transcript" :=
               VList [VDict {[ "text" := VStr "Our product cures everything" ]}];
             "ocr" := VList [VDict {[ "text" := VStr "100% cure" ]}] ]} ]}] ]}.

(** A world where every service answers; the polls and the reply of the
    language model are left open. *)
Definition demo_world (replies : list (result response)) (reply : string)
  : World :=
  {| getenv := fun _ => Some "set";
     new_credential := inr tt;
     credential_token := inr "arm";
     ydl_download := fun _ _ => inr tt;
     http_post := fun target =>
       match target with
       | GenerateAccessToken =>
           inr (ok_response (VDict {[ "accessToken" := VStr "tok" ]}))
       | UploadVideo _ _ => inr (ok_response (VDict {[ "id" := VStr "abc" ]}))
       end;
     http_get := replies;
     open_rb := fun _ => inr tt;
     path_exists := fun _ => true;
     os_remove := fun _ => inr tt;
     azure_clients := inr tt;
     similarity_search := fun _ _ _ => inr ["Health claims need evidence."];
     llm_invoke := fun _ _ _ _ => inr reply |}.

(** One poll, answered [Processed]. *)
Definition processed_polls : list (result response) :=
  [inr (ok_response (demo_payload "Processed"))].

(** A service whose account token is cached, as it is after the upload. *)
Definition demo_service : VideoIndexerService :=
  {| account_id := Some "set"; location := Some "set";
     subscription_id := Some "set"; resource_group := Some "set";
     vi_name := Some "set"; arm_token := Some "arm"; vi_token := VStr "tok" |}.

(** The state after a successful extraction of [demo_payload]. *)
Definition demo_state : dict :=
  {[ "video_url" := VStr "https://youtu.be/VIDEO_ID";
     "video_id" := VStr "vid_12345678";
     "compliance_results" := VList [];
     "errors" := VList [];
     "transcript" := VStr "Our product cures everything";
     "ocr_text" := VList [VStr "100% cure"] ]}.

(** The inputs of a request for a supported and for an unsupported URL. *)
Definition demo_inputs : dict :=
  initial_inputs "https://youtu.be/VIDEO_ID" "12345678-9abc-def0".

Definition unsupported_inputs : dict :=
  initial_inputs "https://example.com/video.mp4" "12345678-9abc-def0".

(** Texts for the examples: [q s] is [s] between double quotes. *)
Definition q (s : string) : string := dq ++ s ++ dq.

Definition unfenced_reply : string :=
  "{" ++ q "status" ++ ":" ++ q "PASS" ++ ","
      ++ q "compliance_results" ++ ":[],"
      ++ q "final_report" ++ ":" ++ q "ok" ++ "}".


Definition fenced_reply : string :=
  "```json" ++ nl ++ unfenced_reply ++ nl ++ "```".



Definition unknown_status_reply : string :=
  "{" ++ q "status" ++ ":" ++ q "UNKNOWN" ++ "}".

(** An issue object with the given severity, and a reply that carries it. *)
Definition issue_text (severity : string) : string :=
  "{" ++ q "category" ++ ":" ++ q "Claim Validation" ++ ","
      ++ q "severity" ++ ":" ++ q severity ++ ","
      ++ q "description" ++ ":" ++ q "Unverified claim" ++ "}".

Definition issue (severity : string) : value :=
  VDict {[ "category" := VStr "Claim Validation";
           "severity" := VStr severity;
           "description" := VStr "Unverified claim" ]}.

Definition issue_reply (status severity : string) : string :=
  "{" ++ q "compliance_results" ++ ":[" ++ issue_text severity ++ "],"
      ++ q "status" ++ ":" ++ q status ++ ","
      ++ q "final_report" ++ ":" ++ q "One issue" ++ "}".

(** ** The words of the specification *)



(** Section 3: the severities of a compliance issue. *)
Definition known_severity (v : value) : bool :=
  is_str v "INFO" || is_str v "WARNING" || is_str v "CRITICAL".

Definition severity_of (issue : value) : value :=
  match issue with
  | VDict d => default VNone (d !! "severity")
  | _ => VNone
  end.


Definition fragments (key : string) (video : value) : list value :=
  match video with
  | VDict v =>
      match v !! "insights" with
      | Some (VDict i) =>
          match i !! key with
          | Some (VList l) => l
          | _ => []
          end
      | _ => []
      end
  | _ => []
  end.












(** ** Further vocabulary for the properties of the code *)

(** A reply that keeps [wait_for_processing] in its loop: status 200, a
    JSON object, and a state that is none of the three terminal ones. *)
Definition in_progress (reply : result response) : bool :=
  match reply with
  | inr r =>
      (status_code r =? 200)%Z
      && match json r with
         | inr (VDict d) =>
             let state := default VNone (d !! "state") in
             negb (is_str state "Processed" || is_str state "Failed"
                   || is_str state "Quarantined")
         | _ => false
         end
  | inl _ => false
  end.

(** The calls of [n] iterations that go on: a poll, then the sleep. *)
Fixpoint waiting (video_id : value) (n : nat) : list event :=
  match n with
  | O => []
  | S n => EvGet video_id :: EvSleep 30 :: waiting video_id n
  end.

(** The seconds slept in a trace. *)
Fixpoint slept (t : list event) : Z :=
  match t with
  | [] => 0
  | EvSleep s :: rest => s + slept rest
  | _ :: rest => slept rest
  end.

(** The requests for an account token in a trace. *)
Definition is_token_post (ev : event) : bool :=
  match ev with
  | EvPost GenerateAccessToken => true
  | _ => false
  end.

Definition token_posts (t : list event) : nat :=
  length (filter (fun ev => is_token_post ev = true) t).

(** The same world with another vector index, or another language model. *)
Definition with_search (w : World)
    (search : value -> string -> Z -> result (list string)) : World :=
  {| getenv := getenv w; new_credential := new_credential w;
     credential_token := credential_token w; ydl_download := ydl_download w;
     http_post := http_post w; http_get := http_get w; open_rb := open_rb w;
     path_exists := path_exists w; os_remove := os_remove w;
     azure_clients := azure_clients w;
     similarity_search := search; llm_invoke := llm_invoke w |}.

Definition with_llm (w : World)
    (llm : string -> value -> value -> value -> result string) : World :=
  {| getenv := getenv w; new_credential := new_credential w;
     credential_token := credential_token w; ydl_download := ydl_download w;
     http_post := http_post w; http_get := http_get w; open_rb := open_rb w;
     path_exists := path_exists w; os_remove := os_remove w;
     azure_clients := azure_clients w;
     similarity_search := similarity_search w; llm_invoke := llm |}.


(** A processed video in which nothing is said: text on screen only. *)
Definition silent_payload : value :=
  VDict {[ "state" := VStr "Processed";
           "id" := VStr "abc";
           "videos" := VList [VDict {[ "insights" := VDict {[
             "ocr" := VList [VDict {[ "text" := VStr "100% cure" ]}] ]} ]}] ]}.

(** The update of the extraction node on an exception with message [msg]. *)
Definition failure_update (msg : string) : dict :=
  {[ "errors" := VList [VStr msg];
     "final_status" := VStr "FAIL";
     "transcript" := VStr "";
     "ocr_text" := VList [] ]}.

(** The update of the adjudication node on an exception with message
    [msg]. *)
Definition error_update (msg : string) : dict :=
  {[ "errors" := VList [VStr msg]; "final_status" := VStr "FAIL" ]}.

(** ** [video_indexer.py]: [process_youtube_video] *)

(** [os.path.basename]: what follows the last [/]. *)
Fixpoint basename (p : string) : string :=
  match p with
  | EmptyString => EmptyString
  | String _ rest => if str_contains "/" p then basename rest else p
  end.

(** [process_youtube_video]; [download_youtube_video] is called with its
    default [output_path]. *)
Definition process_youtube_video (w : World) (self : VideoIndexerService)
    (youtube_url : value) : exec dict :=
  video_path <- download_youtube_video w youtube_url "temp_video.mp4" ;;
  let video_name := basename video_path in
  up <- upload_video w self video_path (VStr video_name) ;;
  let video_id := up.1 in
  let self := up.2 in
  vi_json <- wait_for_processing w self video_id ;;
  result <- extract_data vi_json ;;
  ret result.
(** * Properties *)

(** ** Executions *)

Lemma bind_ret_l {A B} (a : A) (k : A -> exec B) : bind (ret a) k = k a.
Proof. unfold bind, ret. destruct (k a) as [o t]. reflexivity. Qed.

Lemma bind_raise {A B} (e : exn) (k : A -> exec B) :
  bind (raise e) k = raise e.
Proof. reflexivity. Qed.

Lemma bind_lift_inr {A B} (a : A) (k : A -> exec B) :
  bind (lift (inr a)) k = k a.
Proof. apply bind_ret_l. Qed.

Lemma bind_lift_inl {A B} (e : exn) (k : A -> exec B) :
  bind (lift (inl e)) k = raise e.
Proof. reflexivity. Qed.

Lemma bind_emit {B} (ev : event) (k : unit -> exec B) :
  bind (emit ev) k = after [ev] (k tt).
Proof. unfold bind, emit, after. destruct (k tt) as [o t]. reflexivity. Qed.

Lemma after_nil {A} (m : exec A) : after [] m = m.
Proof. destruct m; reflexivity. Qed.

Lemma bind_returned {A B} (m : exec A) (k : A -> exec B) a t :
  m = (Ret a, t) -> bind m k = after t (k a).
Proof. intros ->. unfold bind, after. destruct (k a). reflexivity. Qed.

Lemma bind_raised {A B} (m : exec A) (k : A -> exec B) e t :
  m = (Raise e, t) -> bind m k = (Raise e, t).
Proof. intros ->. reflexivity. Qed.

(** To show that a closed execution returns and that its result has a
    property, it is enough to evaluate it. *)
Lemma exec_returns {A} (m : exec A) :
  match m with (Ret _, _) => True | _ => False end ->
  exists a t, m = (Ret a, t).
Proof. destruct m as [[a | e |] t]; try contradiction. eauto. Qed.

Lemma exec_returns_with {A} (m : exec A) (Q : A -> list event -> Prop) :
  match m with (Ret a, t) => Q a t | _ => False end ->
  exists a t, m = (Ret a, t) /\ Q a t.
Proof. destruct m as [[a | e |] t]; try contradiction. eauto. Qed.

Lemma outcome_returns_with {A} (o : outcome A) (Q : A -> Prop) :
  match o with Ret a => Q a | _ => False end ->
  exists a, o = Ret a /\ Q a.
Proof. destruct o as [a | e |]; try contradiction. eauto. Qed.

Ltac returns_by_computation :=
  match goal with
  | |- exists a t, ?m = (Ret a, t) /\ @?Q a t =>
      apply (exec_returns_with m Q); vm_compute
  | |- exists a t, ?m = (Ret a, t) =>
      apply (exec_returns m); vm_compute; exact I
  | |- exists a, ?o = Ret a /\ @?Q a =>
      apply (outcome_returns_with o Q); vm_compute
  end.

Lemma llm_calls_app {A B} (o : outcome A) (o' : outcome B) t t' :
  llm_calls (o, (t ++ t')%list) = llm_calls (o', t) + llm_calls (o', t').
Proof. unfold llm_calls. simpl. rewrite filter_app, length_app. reflexivity. Qed.

Lemma quiet_ret {A} (a : A) : quiet (ret a).
Proof. reflexivity. Qed.

Lemma quiet_raise {A} (e : exn) : quiet (@raise A e).
Proof. reflexivity. Qed.

Lemma quiet_lift {A} (r : result A) : quiet (lift r).
Proof. destruct r; reflexivity. Qed.

Lemma quiet_emit ev : is_llm_call ev = false -> quiet (emit ev).
Proof.
  intros H. unfold quiet, llm_calls, emit. simpl.
  rewrite filter_cons_False by (rewrite H; discriminate). reflexivity.
Qed.

Lemma quiet_bind {A B} (m : exec A) (k : A -> exec B) :
  quiet m -> (forall a, quiet (k a)) -> quiet (bind m k).
Proof.
  intros Hm Hk. destruct m as [[a | e |] t]; simpl; try exact Hm.
  specialize (Hk a). destruct (k a) as [o t'].
  unfold quiet in *. rewrite (llm_calls_app o o). 
  change (llm_calls (o, t)) with (llm_calls (Ret a, t)). lia.
Qed.

Lemma quiet_try {A} (m : exec A) (h : exn -> exec A) :
  quiet m -> (forall e, quiet (h e)) -> quiet (try_except m h).
Proof.
  intros Hm Hh. destruct m as [[a | e |] t]; simpl; try exact Hm.
  specialize (Hh e). destruct (h e) as [o t'].
  unfold quiet in *. rewrite (llm_calls_app o o).
  change (llm_calls (o, t)) with (llm_calls (@Raise A e, t)). lia.
Qed.

Lemma quiet_if {A} (b : bool) (m1 m2 : exec A) :
  quiet m1 -> quiet m2 -> quiet (if b then m1 else m2).
Proof. destruct b; auto. Qed.

Create HintDb quiet.
#[local] Hint Resolve quiet_ret quiet_raise quiet_lift quiet_bind quiet_try
  quiet_if : quiet.
#[local] Hint Extern 1 (quiet (emit _)) =>
  (apply quiet_emit; reflexivity) : quiet.

(** ** The adjudication node *)


Lemma merge_update_set (state update : dict) (key : string) v :
  update !! key = Some v -> key <> "errors" ->
  merge_update state update !! key = Some v.
Proof.
  intros Hk Hne. unfold merge_update.
  destruct (update !! "errors") as [[| | | | | new |] |];
    try (apply lookup_union_Some_l; exact Hk).
  destruct (state !! "errors") as [[| | | | | old |] |];
    try (apply lookup_union_Some_l; exact Hk).
  rewrite lookup_insert_ne by congruence. apply lookup_union_Some_l; exact Hk.
Qed.

(** The short circuit, and what its update leaves alone. *)
Lemma short_circuit_on_empty_transcript
    (json_loads : string -> result value) (w : World) (state : dict) :
  state !! "transcript" = Some (VStr "") ->
  let update : dict := {[ "final_status" := VStr "FAIL";
                          "final_report" := VStr skipped_report ]} in
  audio_content_node json_loads w state = (Ret update, [])
  /\ (forall key, update !! key = None ->
      merge_update state update !! key = state !! key).
Proof.
  intros Ht update. split.
  - unfold audio_content_node. rewrite Ht. reflexivity.
  - intros key Hkey. unfold merge_update.
    change (update !! "errors") with (@None value). cbv iota.
    apply lookup_union_r. exact Hkey.
Qed.



Lemma decode_content_cases (json_loads : string -> result value) content :
  (exists e, decode_content json_loads content = (Raise e, []))
  \/ (exists v, decode_content json_loads content = (Ret v, [])).
Proof.
  unfold decode_content.
  destruct (str_contains "``" content).
  - destruct (re_search_fence content) as [g |].
    + rewrite bind_ret_l. destruct (json_loads (py_strip g)); eauto.
    + left. eauto.
  - rewrite bind_ret_l. destruct (json_loads (py_strip content)); eauto.
Qed.

(** The update built from a decoded object, lines 122-126. *)
Lemma audit_body_returns (json_loads : string -> result value) w rules md tr ocr
    content d :
  llm_invoke w rules md tr ocr = inr content ->
  decode_content json_loads content = (Ret (VDict d), []) ->
  audit_body json_loads w rules md tr ocr
  = (Ret {[ "compliance_results" :=
              default (VList []) (d !! "compliance_results");
            "final_status" := default (VStr "FAIL") (d !! "status");
            "final_report" :=
              default (VStr "No report generated") (d !! "final_report") ]},
     [EvLLM rules md tr ocr]).
Proof.
  intros Hllm Hdec. unfold audit_body.
  rewrite bind_emit, Hllm, bind_lift_inr.
  rewrite (bind_returned _ _ _ _ Hdec), after_nil.
  simpl py_get. rewrite !bind_lift_inr. reflexivity.
Qed.

(** Whatever goes wrong between the call and the update is raised inside
    the [try], after exactly one call to the model. *)
Lemma audit_body_raises (json_loads : string -> result value) w rules md tr ocr :
  (forall content d,
     llm_invoke w rules md tr ocr = inr content ->
     decode_content json_loads content <> (Ret (VDict d), [])) ->
  exists e, audit_body json_loads w rules md tr ocr
            = (Raise e, [EvLLM rules md tr ocr]).
Proof.
  intros Hno. unfold audit_body. rewrite bind_emit.
  destruct (llm_invoke w rules md tr ocr) as [e | content] eqn:Hllm.
  - exists e. reflexivity.
  - rewrite bind_lift_inr.
    destruct (decode_content_cases json_loads content) as [[e He] | [v Hv]].
    + exists e. rewrite (bind_raised _ _ _ _ He). reflexivity.
    + rewrite (bind_returned _ _ _ _ Hv), after_nil.
      destruct v; try (eexists; reflexivity).
      exfalso. exact (Hno content d eq_refl Hv).
Qed.

(** The node up to its [try], when the clients, the join and the search
    succeed. *)
Lemma audio_content_node_reaches_try
    (json_loads : string -> result value) w (state : dict) joined docs :
  let transcript := default (VStr "") (state !! "transcript") in
  let ocr_text := default (VList []) (state !! "ocr_text") in
  truthy transcript = true ->
  azure_clients w = inr tt ->
  py_join "" ocr_text = inr joined ->
  similarity_search w transcript joined 3 = inr docs ->
  audio_content_node json_loads w state
  = after [EvSearch transcript joined 3]
      (try_except
         (audit_body json_loads w (str_join (nl ++ nl) docs)
            (default (VDict ∅) (state !! "video_metadata")) transcript ocr_text)
         (fun e => ret ({[ "errors" := VList [VStr (str_exn e)];
                           "final_status" := VStr "FAIL" ]} : dict))).
Proof.
  intros transcript ocr_text Ht Hc Hj Hs. unfold audio_content_node.
  fold transcript. rewrite Ht. cbn [negb]. rewrite Hc, bind_lift_inr.
  fold ocr_text. rewrite Hj, bind_lift_inr, bind_emit, Hs, bind_lift_inr.
  reflexivity.
Qed.

(** C6.  When the reply is decoded to an object, the node returns the
    object's [status], [compliance_results] and [final_report], each with
    its default ([FAIL], the empty list, the placeholder) when the key is
    absent. *)
Theorem decoded_object_maps_to_update
    (json_loads : string -> result value) w (state : dict) joined docs
    content d :
  let transcript := default (VStr "") (state !! "transcript") in
  let ocr_text := default (VList []) (state !! "ocr_text") in
  truthy transcript = true ->
  azure_clients w = inr tt ->
  py_join "" ocr_text = inr joined ->
  similarity_search w transcript joined 3 = inr docs ->
  llm_invoke w (str_join (nl ++ nl) docs)
    (default (VDict ∅) (state !! "video_metadata")) transcript ocr_text
  = inr content ->
  decode_content json_loads content = (Ret (VDict d), []) ->
  (audio_content_node json_loads w state).1
  = Ret {[ "compliance_results" :=
             default (VList []) (d !! "compliance_results");
           "final_status" := default (VStr "FAIL") (d !! "status");
           "final_report" :=
             default (VStr "No report generated") (d !! "final_report") ]}.
Proof.
  intros transcript ocr_text Ht Hc Hj Hs Hllm Hdec.
  rewrite (audio_content_node_reaches_try json_loads w state joined docs
             Ht Hc Hj Hs).
  fold transcript ocr_text.
  rewrite (audit_body_returns json_loads _ _ _ _ _ content d Hllm Hdec).
  reflexivity.
Qed.

(** The reply [{"status":"PASS","compliance_results":[],"final_report":"ok"}]
    maps to [PASS], [[]] and ["ok"]. *)
Lemma decoded_object_maps_to_update_witness :
  decode_content MiniJson.loads unfenced_reply
  = (Ret (VDict {[ "status" := VStr "PASS";
                   "compliance_results" := VList [];
                   "final_report" := VStr "ok" ]}), [])
  /\ (audio_content_node MiniJson.loads (demo_world [] unfenced_reply)
        demo_state).1
     = Ret {[ "compliance_results" := VList [];
              "final_status" := VStr "PASS";
              "final_report" := VStr "ok" ]}.
Proof.
  split; [vm_compute; reflexivity |].
  exact (decoded_object_maps_to_update MiniJson.loads
           (demo_world [] unfenced_reply) demo_state "100% cure"
           ["Health claims need evidence."] unfenced_reply
           {[ "status" := VStr "PASS"; "compliance_results" := VList [];
              "final_report" := VStr "ok" ]}
           eq_refl eq_refl eq_refl eq_refl eq_refl eq_refl).
Defined.

(** ** The fence *)

Lemma fence_tail_short s g :
  fence_tail s = Some g -> String.length g <= 1.
Proof.
  unfold fence_tail. destruct s as [| c rest]; [discriminate |].
  destruct (String.prefix "```" rest).
  - intros [= <-]. simpl. lia.
  - destruct (String.prefix "```" (String c rest)); [| discriminate].
    intros [= <-]. simpl. lia.
Qed.

Lemma fence_match_here_short s g :
  fence_match_here s = Some g -> String.length g <= 1.
Proof.
  unfold fence_match_here.
  destruct (drop_prefix "```" s) as [s1 |]; [| discriminate].
  destruct (drop_prefix "json" s1) as [s2 |]; simpl.
  - destruct (fence_tail s2) as [g' |] eqn:H2.
    + intros [= <-]. eapply fence_tail_short; eassumption.
    + apply fence_tail_short.
  - apply fence_tail_short.
Qed.

(** Group 1 of the pattern is [(.?)]: whatever the reply, it holds at most
    one character. *)
Lemma re_search_fence_short s g :
  re_search_fence s = Some g -> String.length g <= 1.
Proof.
  induction s as [| c rest IH]; cbn [re_search_fence].
  - destruct (fence_match_here "") eqn:H; [| discriminate].
    intros [= <-]. eapply fence_match_here_short; eassumption.
  - destruct (fence_match_here (String c rest)) eqn:H.
    + intros [= <-]. eapply fence_match_here_short; eassumption.
    + exact IH.
Qed.

(** A reply that holds two backticks is never decoded as it stands: either
    the search fails and [.group] raises, or the decoder is given at most
    one character. *)
Lemma decode_content_fenced (json_loads : string -> result value) content :
  str_contains "``" content = true ->
  decode_content json_loads content
  = raise (Exn "AttributeError" "'NoneType' object has no attribute 'group'")
  \/ exists g, String.length g <= 1
       /\ decode_content json_loads content = lift (json_loads (py_strip g)).
Proof.
  intros Hc. unfold decode_content. rewrite Hc.
  destruct (re_search_fence content) as [g |] eqn:Hs.
  - right. exists g. split; [eapply re_search_fence_short; eassumption |].
    rewrite bind_ret_l. reflexivity.
  - left. reflexivity.
Qed.

(** C2.  The reply [{"status":"PASS","compliance_results":[],
    "final_report":"ok"}] inside a [```json] fence is not decoded like the
    bare reply: the bare reply yields [PASS] with its report, the fenced one
    finds no match for the pattern, [.group(1)] raises on [None], and the
    node returns the error update with [final_status = FAIL]. *)
Theorem fenced_reply_fails_to_decode :
  re_search_fence fenced_reply = None
  /\ (audio_content_node MiniJson.loads (demo_world [] unfenced_reply)
        demo_state).1
     = Ret {[ "compliance_results" := VList [];
              "final_status" := VStr "PASS";
              "final_report" := VStr "ok" ]}
  /\ (audio_content_node MiniJson.loads (demo_world [] fenced_reply)
        demo_state).1
     = Ret {[ "errors" :=
                VList [VStr "'NoneType' object has no attribute 'group'"];
              "final_status" := VStr "FAIL" ]}.
Proof. repeat split; vm_compute; reflexivity. Qed.

(** ** Replies that are not of the required shape *)

Lemma audit_body_decode_raises (json_loads : string -> result value)
    w rules md tr ocr content e :
  llm_invoke w rules md tr ocr = inr content ->
  decode_content json_loads content = (Raise e, []) ->
  audit_body json_loads w rules md tr ocr = (Raise e, [EvLLM rules md tr ocr]).
Proof.
  intros Hllm Hdec. unfold audit_body.
  rewrite bind_emit, Hllm, bind_lift_inr, (bind_raised _ _ _ _ Hdec).
  reflexivity.
Qed.

Lemma audit_body_not_object (json_loads : string -> result value)
    w rules md tr ocr content v :
  llm_invoke w rules md tr ocr = inr content ->
  decode_content json_loads content = (Ret v, []) ->
  (forall d, v <> VDict d) ->
  audit_body json_loads w rules md tr ocr
  = (Raise (Exn "AttributeError"
              ("'" ++ type_name v ++ "' object has no attribute 'get'")),
     [EvLLM rules md tr ocr]).
Proof.
  intros Hllm Hdec Hv. unfold audit_body.
  rewrite bind_emit, Hllm, bind_lift_inr, (bind_returned _ _ _ _ Hdec).
  rewrite after_nil.
  destruct v; try reflexivity. exfalso. exact (Hv d eq_refl).
Qed.




(** ** Severities *)

(** C9, as the code has it.  The node does not look inside the issues: the
    array of the decoded object, whatever the severity of its issues, is
    returned unchanged as [compliance_results], no error is recorded, and
    the status is the one the object carries. *)
Theorem issues_are_accepted_unchanged
    (json_loads : string -> result value) w (state : dict) joined docs
    content d issues :
  let transcript := default (VStr "") (state !! "transcript") in
  let ocr_text := default (VList []) (state !! "ocr_text") in
  truthy transcript = true ->
  azure_clients w = inr tt ->
  py_join "" ocr_text = inr joined ->
  similarity_search w transcript joined 3 = inr docs ->
  llm_invoke w (str_join (nl ++ nl) docs)
    (default (VDict ∅) (state !! "video_metadata")) transcript ocr_text
  = inr content ->
  decode_content json_loads content = (Ret (VDict d), []) ->
  d !! "compliance_results" = Some (VList issues) ->
  exists update : dict,
    (audio_content_node json_loads w state).1 = Ret update
    /\ update !! "compliance_results" = Some (VList issues)
    /\ update !! "errors" = None
    /\ update !! "final_status" = Some (default (VStr "FAIL") (d !! "status")).
Proof.
  intros transcript ocr_text Ht Hc Hj Hs Hllm Hdec Hissues.
  rewrite (audio_content_node_reaches_try json_loads w state joined docs
             Ht Hc Hj Hs).
  fold transcript ocr_text.
  rewrite (audit_body_returns json_loads _ _ _ _ _ content d Hllm Hdec).
  eexists. split; [reflexivity |]. rewrite Hissues.
  repeat split; reflexivity.
Qed.

Lemma issues_are_accepted_unchanged_witness :
  decode_content MiniJson.loads (issue_reply "FAIL" "CRITICAL")
  = (Ret (VDict {[ "compliance_results" := VList [issue "CRITICAL"];
                   "status" := VStr "FAIL";
                   "final_report" := VStr "One issue" ]}), [])
  /\ exists update : dict,
       (audio_content_node MiniJson.loads
          (demo_world [] (issue_reply "FAIL" "CRITICAL")) demo_state).1
       = Ret update
       /\ update !! "compliance_results" = Some (VList [issue "CRITICAL"]).
Proof.
  split; [vm_compute; reflexivity |].
  pose proof (issues_are_accepted_unchanged MiniJson.loads
                (demo_world [] (issue_reply "FAIL" "CRITICAL")) demo_state
                "100% cure" ["Health claims need evidence."]
                (issue_reply "FAIL" "CRITICAL")
                ({[ "compliance_results" := VList [issue "CRITICAL"];
                    "status" := VStr "FAIL";
                    "final_report" := VStr "One issue" ]} : dict)
                [issue "CRITICAL"]) as H.
  specialize (H eq_refl eq_refl eq_refl eq_refl eq_refl eq_refl eq_refl).
  destruct H as (update & Hrun & Hissues & _).
  exists update. split; assumption.
Defined.

(** C9, as the claim has it, fails.  An issue of severity [BLOCKER], which
    is none of [INFO], [WARNING], [CRITICAL], is accepted: it is in
    [compliance_results], no error is recorded and the status is the [PASS]
    of the reply. *)
Lemma unknown_severity_counterexample :
  known_severity (severity_of (issue "BLOCKER")) = false
  /\ exists update : dict,
       (audio_content_node MiniJson.loads
          (demo_world [] (issue_reply "PASS" "BLOCKER")) demo_state).1
       = Ret update
       /\ update !! "compliance_results" = Some (VList [issue "BLOCKER"])
       /\ update !! "errors" = None
       /\ update !! "final_status" = Some (VStr "PASS").
Proof.
  split; [reflexivity |].
  returns_by_computation. repeat split; reflexivity.
Qed.

(** ** The polling loop *)

Lemma is_str_true v s : is_str v s = true <-> v = VStr s.
Proof.
  destruct v; simpl; try (split; [discriminate | congruence]).
  rewrite String.eqb_eq. split; congruence.
Qed.

Lemma is_str_false v s : is_str v s = false <-> v <> VStr s.
Proof.
  rewrite <- is_str_true. destruct (is_str v s); split; congruence.
Qed.

Lemma get_account_token_with_polls w replies self :
  get_account_token (with_polls w replies) self = get_account_token w self.
Proof. reflexivity. Qed.

Lemma wait_for_processing_polls w self video_id replies tok t0 :
  get_account_token w self = (Ret tok, t0) ->
  wait_for_processing (with_polls w replies) self video_id
  = after t0 (poll_loop video_id replies).
Proof.
  intros Htok. unfold wait_for_processing.
  rewrite get_account_token_with_polls.
  rewrite (bind_returned _ _ _ _ Htok). reflexivity.
Qed.

Lemma poll_loop_not_200 video_id (r : response) later :
  status_code r <> 200%Z ->
  poll_loop video_id (inr r :: later)
  = (Raise (Exception ("Failed to get status: " ++ text r)), [EvGet video_id]).
Proof.
  intros H. cbn [poll_loop]. rewrite bind_emit, bind_lift_inr.
  apply Z.eqb_neq in H. rewrite H. reflexivity.
Qed.

Lemma poll_loop_200 video_id (r : response) later d :
  status_code r = 200%Z -> json r = inr (VDict d) ->
  poll_loop video_id (inr r :: later)
  = after [EvGet video_id]
      (let state := default VNone (d !! "state") in
       if is_str state "Processed" then ret (VDict d)
       else if is_str state "Failed" then
         raise (Exception "Video indexing failed")
       else if is_str state "Quarantined" then
         raise (Exception "Video quarantined")
       else emit (EvSleep 30) ;; poll_loop video_id later).
Proof.
  intros Hs Hj. cbn [poll_loop]. rewrite bind_emit, bind_lift_inr.
  rewrite Hs. cbn [Z.eqb Pos.eqb negb]. rewrite Hj, bind_lift_inr.
  cbn [py_get]. rewrite bind_lift_inr. reflexivity.
Qed.

Lemma after_after {A} t1 t2 (m : exec A) :
  after t1 (after t2 m) = after (t1 ++ t2)%list m.
Proof. unfold after. simpl. rewrite app_assoc. reflexivity. Qed.

(** C7.  With the account token at hand, [wait_for_processing] on the
    replies [r :: later]: a status other than 200 raises at once, with this
    one poll; state [Processed] returns the payload of [r]; [Failed] and
    [Quarantined] raise, each its own error, with this one poll and none
    after it; any other state sleeps 30 seconds and goes on with [later]. *)
Theorem wait_for_processing_cases
    w self video_id tok t0 (r : response) later :
  get_account_token w self = (Ret tok, t0) ->
  let run := wait_for_processing (with_polls w (inr r :: later)) self video_id in
  (status_code r <> 200%Z ->
   run = (Raise (Exception ("Failed to get status: " ++ text r)),
          (t0 ++ [EvGet video_id])%list))
  /\ (forall d, status_code r = 200%Z -> json r = inr (VDict d) ->
      let state := default VNone (d !! "state") in
      (state = VStr "Processed" ->
       run = (Ret (VDict d), (t0 ++ [EvGet video_id])%list))
      /\ (state = VStr "Failed" ->
          run = (Raise (Exception "Video indexing failed"),
                 (t0 ++ [EvGet video_id])%list))
      /\ (state = VStr "Quarantined" ->
          run = (Raise (Exception "Video quarantined"),
                 (t0 ++ [EvGet video_id])%list))
      /\ (state <> VStr "Processed" -> state <> VStr "Failed" ->
          state <> VStr "Quarantined" ->
          run = after (t0 ++ [EvGet video_id; EvSleep 30])%list
                  (poll_loop video_id later)
          /\ wait_for_processing (with_polls w later) self video_id
             = after t0 (poll_loop video_id later))).
Proof.
  intros Htok run. subst run.
  rewrite (wait_for_processing_polls _ _ _ _ _ _ Htok).
  split.
  - intros Hs. rewrite (poll_loop_not_200 _ _ _ Hs). reflexivity.
  - intros d Hs Hj state. subst state.
    rewrite (poll_loop_200 _ _ _ _ Hs Hj). cbv zeta.
    generalize (default VNone (d !! "state")). intros state.
    repeat split.
    + intros ->. reflexivity.
    + intros ->. reflexivity.
    + intros ->. reflexivity.
    + apply is_str_false in H, H0, H1. rewrite H, H0, H1.
      rewrite bind_emit, !after_after, <- app_assoc. reflexivity.
    + apply (wait_for_processing_polls _ _ _ _ _ _ Htok).
Qed.

Lemma wait_for_processing_cases_witness :
  let w := demo_world [] unfenced_reply in
  let r := ok_response (demo_payload "Quarantined") in
  get_account_token w demo_service = (Ret (VStr "tok", demo_service), [])
  /\ wait_for_processing
       (with_polls w [inr r; inr (ok_response (demo_payload "Processed"))])
       demo_service (VStr "abc")
     = (Raise (Exception "Video quarantined"), [EvGet (VStr "abc")]).
Proof.
  intros w r. split; [reflexivity |].
  pose proof (wait_for_processing_cases w demo_service (VStr "abc")
                (VStr "tok", demo_service) [] r
                [inr (ok_response (demo_payload "Processed"))] eq_refl) as H.
  destruct H as [_ H].
  match type of H with
  | forall d, _ -> json r = inr (VDict d) -> _ =>
      match eval cbv [r ok_response json demo_payload] in (json r) with
      | inr (VDict ?d) => specialize (H d eq_refl eq_refl)
      end
  end.
  destruct H as (_ & _ & H & _). apply H. vm_compute. reflexivity.
Defined.

(** Section 8: on [InProgress], [InProgress], [Processed] the payload of the
    third reply is returned after two sleeps. *)
Example poll_until_processed :
  wait_for_processing
    (with_polls (demo_world [] unfenced_reply)
       [inr (ok_response (demo_payload "InProgress"));
        inr (ok_response (demo_payload "InProgress"));
        inr (ok_response (demo_payload "Processed"))])
    demo_service (VStr "abc")
  = (Ret (demo_payload "Processed"),
     [EvGet (VStr "abc"); EvSleep 30; EvGet (VStr "abc"); EvSleep 30;
      EvGet (VStr "abc")]).
Proof. vm_compute. reflexivity. Qed.

(** ** Normalisation *)











(** Two videos, a fragment without text, a video without insights. *)
Example extract_data_document_order :
  extract_data
    (VDict {[ "videos" := VList [
       VDict {[ "insights" := VDict {[
         "transcript" := VList [VDict {[ "text" := VStr "a" ]}; VDict ∅;
                                VDict {[ "text" := VStr "b" ]}] ]} ]};
       VDict ∅;
       VDict {[ "insights" := VDict {[
         "transcript" := VList [VDict {[ "text" := VStr "c" ]}];
         "ocr" := VList [VDict {[ "text" := VStr "x" ]}] ]} ]}] ]})
  = (Ret {[ "transcript" := VStr "a  b c";
            "ocr_text" := VList [VStr "x"];
            "metadata" := VDict {[ "duration" := VNone;
                                   "video_id" := VNone;
                                   "platform" := VStr "youtube" ]} ]}, []).
Proof. vm_compute. reflexivity. Qed.

(** ** The extraction node *)

Ltac quiet_tac :=
  repeat first
    [ assumption
    | apply quiet_ret | apply quiet_raise | apply quiet_lift
    | apply quiet_emit; reflexivity
    | apply quiet_bind; [| intros ?]
    | apply quiet_try; [| intros ?]
    | apply quiet_if
    | match goal with
      | |- quiet (match ?x with _ => _ end) => destruct x
      end ].

Lemma quiet_get_account_token w self : quiet (get_account_token w self).
Proof. unfold get_account_token, get_access_token. quiet_tac. Qed.

Lemma quiet_poll_loop video_id replies : quiet (poll_loop video_id replies).
Proof.
  induction replies as [| reply later IH]; [reflexivity |].
  cbn [poll_loop]. quiet_tac.
Qed.

Lemma quiet_texts_of l : quiet (texts_of l).
Proof. induction l as [| x rest IH]; cbn [texts_of]; quiet_tac. Qed.

Lemma quiet_collect videos : forall transcript ocr,
  quiet (collect videos transcript ocr).
Proof.
  induction videos as [| video rest IH]; intros transcript ocr;
    cbn [collect]; quiet_tac; auto using quiet_texts_of.
Qed.

Lemma quiet_extract_data raw : quiet (extract_data raw).
Proof. unfold extract_data. quiet_tac; auto using quiet_collect. Qed.

(** The extraction never calls the language model. *)
Lemma quiet_index_video_body w state : quiet (index_video_body w state).
Proof.
  unfold index_video_body, new_service, download_youtube_video, upload_video,
    wait_for_processing.
  quiet_tac;
    auto using quiet_get_account_token, quiet_poll_loop, quiet_collect.
Qed.

(** The node catches whatever its body raises. *)
Lemma index_video_node_catches w (state : dict) e t :
  index_video_body w state = (Raise e, t) ->
  index_video_node w state
  = (Ret {[ "errors" := VList [VStr (str_exn e)];
            "final_status" := VStr "FAIL";
            "transcript" := VStr "";
            "ocr_text" := VList [] ]}, t).
Proof.
  intros H. unfold index_video_node. rewrite H. cbn [try_except ret].
  rewrite app_nil_r. reflexivity.
Qed.

Lemma index_video_node_returns w (state : dict) update t :
  index_video_node w state = (Ret update, t) ->
  index_video_body w state = (Ret update, t)
  \/ exists e, index_video_body w state = (Raise e, t)
       /\ update = {[ "errors" := VList [VStr (str_exn e)];
                      "final_status" := VStr "FAIL";
                      "transcript" := VStr "";
                      "ocr_text" := VList [] ]}.
Proof.
  unfold index_video_node.
  destruct (index_video_body w state) as [[u | e |] t'] eqn:Hb;
    cbn [try_except ret].
  - intros [= <- <-]. left. reflexivity.
  - rewrite app_nil_r. intros [= <- <-]. right. exists e. split; reflexivity.
  - discriminate.
Qed.

Lemma quiet_index_video_node w state : quiet (index_video_node w state).
Proof.
  unfold index_video_node. apply quiet_try.
  - apply quiet_index_video_body.
  - intros e. apply quiet_ret.
Qed.

Lemma run_graph_returns (json_loads : string -> result value) w inputs final t :
  run_graph json_loads w inputs = (Ret final, t) ->
  exists u1 t1 u2 t2,
    index_video_node w inputs = (Ret u1, t1)
    /\ audio_content_node json_loads w (merge_update inputs u1) = (Ret u2, t2)
    /\ final = merge_update (merge_update inputs u1) u2
    /\ t = (t1 ++ t2)%list.
Proof.
  unfold run_graph.
  destruct (index_video_node w inputs) as [[u1 | e |] t1] eqn:H1; cbn [bind];
    try discriminate.
  destruct (audio_content_node json_loads w (merge_update inputs u1))
    as [[u2 | e |] t2] eqn:H2; cbn [bind ret]; try discriminate.
  rewrite app_nil_r. intros [= <- <-]. exists u1, t1, u2, t2.
  repeat split; assumption || reflexivity.
Qed.

(** The three updates the adjudication node can return. *)
Lemma audio_content_node_returns
    (json_loads : string -> result value) w (state : dict) update t :
  audio_content_node json_loads w state = (Ret update, t) ->
  (update = {[ "final_status" := VStr "FAIL";
               "final_report" := VStr skipped_report ]} /\ t = [])
  \/ (exists e, update = {[ "errors" := VList [VStr (str_exn e)];
                            "final_status" := VStr "FAIL" ]})
  \/ (exists rules md tr ocr content d,
        llm_invoke w rules md tr ocr = inr content
        /\ decode_content json_loads content = (Ret (VDict d), [])
        /\ update
           = {[ "compliance_results" :=
                  default (VList []) (d !! "compliance_results");
                "final_status" := default (VStr "FAIL") (d !! "status");
                "final_report" :=
                  default (VStr "No report generated")
                    (d !! "final_report") ]}).
Proof.
  unfold audio_content_node.
  set (transcript := default (VStr "") (state !! "transcript")).
  set (ocr_text := default (VList []) (state !! "ocr_text")).
  set (md := default (VDict ∅) (state !! "video_metadata")).
  destruct (truthy transcript); cbn [negb].
  - destruct (azure_clients w) as [e | []]; [discriminate |].
    rewrite bind_lift_inr.
    destruct (py_join "" ocr_text) as [e | joined]; [discriminate |].
    rewrite bind_lift_inr, bind_emit.
    destruct (similarity_search w transcript joined 3) as [e | docs];
      [discriminate |].
    rewrite bind_lift_inr.
    set (rules := str_join (nl ++ nl) docs).
    destruct (llm_invoke w rules md transcript ocr_text) as [e | content]
      eqn:Hllm.
    + unfold audit_body. rewrite bind_emit, Hllm, bind_lift_inl.
      intros [= <- _]. right. left. exists e. reflexivity.
    + destruct (decode_content_cases json_loads content) as [[e He] | [v Hv]].
      * rewrite (audit_body_decode_raises json_loads _ _ _ _ _ content e
                   Hllm He).
        intros [= <- _]. right. left. exists e. reflexivity.
      * destruct v as [| b | z | m e | s | l | d];
          try (rewrite (audit_body_not_object json_loads _ _ _ _ _ content _
                          Hllm Hv) by discriminate;
               intros [= <- _]; right; left;
               eexists (Exn "AttributeError" _); reflexivity).
        rewrite (audit_body_returns json_loads _ _ _ _ _ content d Hllm Hv).
        intros [= <- _]. right. right.
        exists rules, md, transcript, ocr_text, content, d. auto.
  - intros [= <- <-]. left. split; reflexivity.
Qed.

(** ** The pipeline *)

(** C10.  Whatever the body of the extraction node raises, the node returns
    the failure update: the recorded error, [final_status = FAIL], an empty
    transcript and an empty [ocr_text].  The adjudication node, which the
    graph runs next unconditionally, then finds the empty transcript and
    returns its short-circuit update without any call: the run completes
    with [final_status = FAIL], the error kept, and no call to the language
    model. *)
Theorem extraction_failure_skips_adjudication
    (json_loads : string -> result value) w (state : dict) e t :
  index_video_body w state = (Raise e, t) ->
  let failure : dict := {[ "errors" := VList [VStr (str_exn e)];
                           "final_status" := VStr "FAIL";
                           "transcript" := VStr "";
                           "ocr_text" := VList [] ]} in
  index_video_node w state = (Ret failure, t)
  /\ merge_update state failure !! "transcript" = Some (VStr "")
  /\ audio_content_node json_loads w (merge_update state failure)
     = (Ret {[ "final_status" := VStr "FAIL";
               "final_report" := VStr skipped_report ]}, [])
  /\ exists final,
       run_graph json_loads w state = (Ret final, t)
       /\ llm_calls (run_graph json_loads w state) = 0
       /\ final !! "final_status" = Some (VStr "FAIL")
       /\ final !! "transcript" = Some (VStr "")
       /\ (forall old, state !! "errors" = Some (VList old) ->
           final !! "errors" = Some (VList (old ++ [VStr (str_exn e)]))).
Proof.
  intros Hbody failure.
  assert (Hnode : index_video_node w state = (Ret failure, t))
    by exact (index_video_node_catches w state e t Hbody).
  assert (Htr : merge_update state failure !! "transcript" = Some (VStr ""))
    by (apply merge_update_set; [reflexivity | discriminate]).
  destruct (short_circuit_on_empty_transcript json_loads w
              (merge_update state failure) Htr) as [Haudio Hkeep].
  repeat split; try assumption.
  assert (Hrun : run_graph json_loads w state
                 = (Ret (merge_update (merge_update state failure)
                           {[ "final_status" := VStr "FAIL";
                              "final_report" := VStr skipped_report ]}), t)).
  { unfold run_graph. rewrite Hnode. cbn [bind]. rewrite Haudio.
    cbn [bind ret]. rewrite !app_nil_r. reflexivity. }
  eexists. split; [exact Hrun |]. repeat split.
  - rewrite Hrun. pose proof (quiet_index_video_body w state) as Hq.
    rewrite Hbody in Hq. exact Hq.
  - apply merge_update_set; [reflexivity | discriminate].
  - rewrite (Hkeep "transcript") by (reflexivity || discriminate). exact Htr.
  - intros old Hold. rewrite (Hkeep "errors") by reflexivity.
    unfold merge_update. rewrite Hold.
    change (failure !! "errors") with (Some (VList [VStr (str_exn e)])).
    apply lookup_insert_eq.
Qed.

Lemma extraction_failure_skips_adjudication_witness :
  let w := demo_world processed_polls unfenced_reply in
  index_video_body w unsupported_inputs
  = (Raise (Exception "Please provide a valid URL for this test."), [])
  /\ exists final,
       run_graph MiniJson.loads w unsupported_inputs = (Ret final, [])
       /\ llm_calls (run_graph MiniJson.loads w unsupported_inputs) = 0
       /\ final !! "final_status" = Some (VStr "FAIL").
Proof.
  intros w. split; [vm_compute; reflexivity |].
  pose proof (extraction_failure_skips_adjudication MiniJson.loads w
                unsupported_inputs
                (Exception "Please provide a valid URL for this test.") [])
    as H.
  destruct H as (_ & _ & _ & final & Hrun & Hcalls & Hstatus & _).
  - vm_compute. reflexivity.
  - exists final. repeat split; assumption.
Defined.

(** A quarantined video: the polls are in the trace, the model is not. *)
Example quarantined_run :
  let w := demo_world [inr (ok_response (demo_payload "Quarantined"))]
             unfenced_reply in
  exists final t,
    run_graph MiniJson.loads w demo_inputs = (Ret final, t)
    /\ polls (run_graph MiniJson.loads w demo_inputs) = 1
    /\ llm_calls (run_graph MiniJson.loads w demo_inputs) = 0
    /\ final !! "errors" = Some (VList [VStr "Video quarantined"])
    /\ response_status final = VStr "FAIL".
Proof.
  intros w. returns_by_computation. repeat split; reflexivity.
Qed.

(** C3, as the code has it.  After a completed run [final_status] is set,
    and it is [FAIL] or the [status] of the object decoded from the reply of
    the language model, whatever that value is. *)
Theorem completed_run_final_status
    (json_loads : string -> result value) w (inputs final : dict) t :
  run_graph json_loads w inputs = (Ret final, t) ->
  exists v,
    final !! "final_status" = Some v
    /\ response_status final = v
    /\ (v = VStr "FAIL"
        \/ exists rules md tr ocr content d,
             llm_invoke w rules md tr ocr = inr content
             /\ decode_content json_loads content = (Ret (VDict d), [])
             /\ d !! "status" = Some v).
Proof.
  intros Hrun.
  destruct (run_graph_returns json_loads w inputs final t Hrun)
    as (u1 & t1 & u2 & t2 & _ & Haudio & -> & _).
  assert (Hset : forall v, u2 !! "final_status" = Some v ->
                 merge_update (merge_update inputs u1) u2 !! "final_status"
                 = Some v)
    by (intros v Hv; apply merge_update_set; [exact Hv | discriminate]).
  unfold response_status.
  destruct (audio_content_node_returns json_loads w _ u2 t2 Haudio)
    as [[-> _] | [[e ->] | (rules & md & tr & ocr & content & d
                            & Hllm & Hdec & ->)]].
  - exists (VStr "FAIL"). rewrite (Hset (VStr "FAIL") eq_refl). auto.
  - exists (VStr "FAIL"). rewrite (Hset (VStr "FAIL") eq_refl). auto.
  - exists (default (VStr "FAIL") (d !! "status")).
    rewrite (Hset _ eq_refl). repeat split.
    destruct (d !! "status") as [v |] eqn:Hstatus; [| left; reflexivity].
    right. exists rules, md, tr, ocr, content, d. auto.
Qed.

Lemma completed_run_final_status_witness :
  let w := demo_world processed_polls (issue_reply "FAIL" "CRITICAL") in
  (exists final t, run_graph MiniJson.loads w demo_inputs = (Ret final, t))
  /\ exists final,
       (run_graph MiniJson.loads w demo_inputs).1 = Ret final
       /\ exists v, final !! "final_status" = Some v.
Proof.
  intros w.
  assert (Hrun : exists final t,
             run_graph MiniJson.loads w demo_inputs = (Ret final, t))
    by returns_by_computation.
  split; [exact Hrun |].
  destruct Hrun as (final & t & Hrun).
  destruct (completed_run_final_status MiniJson.loads w demo_inputs final t
              Hrun) as (v & Hv & _).
  exists final. split; [rewrite Hrun; reflexivity | exists v; exact Hv].
Defined.

(** Section 8, the end-to-end scenario: one [CRITICAL] issue, [FAIL]. *)
Example end_to_end_scenario :
  exists final t,
    run_graph MiniJson.loads
      (demo_world processed_polls (issue_reply "FAIL" "CRITICAL"))
      demo_inputs = (Ret final, t)
    /\ response_status final = VStr "FAIL"
    /\ final !! "compliance_results" = Some (VList [issue "CRITICAL"])
    /\ final !! "transcript" = Some (VStr "Our product cures everything").
Proof.
  returns_by_computation. repeat split; reflexivity.
Qed.

(** C3, as the claim has it, fails.  The extraction succeeds, the model
    replies [{"status":"UNKNOWN"}], and the completed run has
    [final_status = UNKNOWN], neither [PASS] nor [FAIL]. *)
Lemma unknown_status_counterexample :
  exists final t,
    run_graph MiniJson.loads
      (demo_world processed_polls unknown_status_reply) demo_inputs
    = (Ret final, t)
    /\ final !! "final_status" = Some (VStr "UNKNOWN")
    /\ response_status final <> VStr "PASS"
    /\ response_status final <> VStr "FAIL".
Proof.
  returns_by_computation. repeat split; try reflexivity; discriminate.
Qed.

(** C4, as the code has it.  After a completed run with
    [final_status = PASS], the model replied an object whose [status] is
    [PASS], and [compliance_results] is the array of that object, empty when
    the object has none. *)
Theorem pass_carries_reply_issues
    (json_loads : string -> result value) w (inputs final : dict) t :
  run_graph json_loads w inputs = (Ret final, t) ->
  final !! "final_status" = Some (VStr "PASS") ->
  exists rules md tr ocr content d,
    llm_invoke w rules md tr ocr = inr content
    /\ decode_content json_loads content = (Ret (VDict d), [])
    /\ d !! "status" = Some (VStr "PASS")
    /\ final !! "compliance_results"
       = Some (default (VList []) (d !! "compliance_results"))
    /\ (d !! "compliance_results" = None
        \/ d !! "compliance_results" = Some (VList []) ->
        final !! "compliance_results" = Some (VList [])).
Proof.
  intros Hrun Hpass.
  destruct (run_graph_returns json_loads w inputs final t Hrun)
    as (u1 & t1 & u2 & t2 & _ & Haudio & -> & _).
  assert (Hset : forall key v, key <> "errors" -> u2 !! key = Some v ->
                 merge_update (merge_update inputs u1) u2 !! key = Some v)
    by (intros key v Hne Hv; apply merge_update_set; assumption).
  destruct (audio_content_node_returns json_loads w _ u2 t2 Haudio)
    as [[-> _] | [[e ->] | (rules & md & tr & ocr & content & d
                            & Hllm & Hdec & ->)]].
  - rewrite (Hset "final_status" (VStr "FAIL")) in Hpass
      by (reflexivity || discriminate). discriminate.
  - rewrite (Hset "final_status" (VStr "FAIL")) in Hpass
      by (reflexivity || discriminate). discriminate.
  - rewrite (Hset "final_status" _ ltac:(discriminate) eq_refl) in Hpass.
    assert (Hres : merge_update (merge_update inputs u1)
                     {[ "compliance_results" :=
                          default (VList []) (d !! "compliance_results");
                        "final_status" := default (VStr "FAIL") (d !! "status");
                        "final_report" :=
                          default (VStr "No report generated")
                            (d !! "final_report") ]} !! "compliance_results"
                   = Some (default (VList []) (d !! "compliance_results")))
      by (apply Hset; [discriminate | reflexivity]).
    exists rules, md, tr, ocr, content, d. repeat split; try assumption.
    + destruct (d !! "status") as [v |]; simpl in Hpass; congruence.
    + intros [H | H]; rewrite Hres, H; reflexivity.
Qed.

Lemma pass_carries_reply_issues_witness :
  let w := demo_world processed_polls unfenced_reply in
  (exists final t,
     run_graph MiniJson.loads w demo_inputs = (Ret final, t)
     /\ final !! "final_status" = Some (VStr "PASS"))
  /\ exists (final d : dict),
       (run_graph MiniJson.loads w demo_inputs).1 = Ret final
       /\ final !! "compliance_results"
          = Some (default (VList []) (d !! "compliance_results")).
Proof.
  intros w.
  assert (Hrun : exists final t,
             run_graph MiniJson.loads w demo_inputs = (Ret final, t)
             /\ final !! "final_status" = Some (VStr "PASS"))
    by (returns_by_computation; reflexivity).
  split; [exact Hrun |].
  destruct Hrun as (final & t & Hrun & Hpass).
  destruct (pass_carries_reply_issues MiniJson.loads w demo_inputs final t
              Hrun Hpass)
    as (rules & md & tr & ocr & content & d & _ & _ & _ & Hres & _).
  exists final, d. split; [rewrite Hrun; reflexivity | exact Hres].
Defined.

(** C4, as the claim has it, fails.  The model replies [PASS] together with
    one issue: the completed run has [final_status = PASS] and a non-empty
    [compliance_results]. *)
Lemma pass_with_issues_counterexample :
  exists final t,
    run_graph MiniJson.loads
      (demo_world processed_polls (issue_reply "PASS" "CRITICAL")) demo_inputs
    = (Ret final, t)
    /\ final !! "final_status" = Some (VStr "PASS")
    /\ final !! "compliance_results" = Some (VList [issue "CRITICAL"])
    /\ final !! "compliance_results" <> Some (VList []).
Proof.
  returns_by_computation. repeat split; try reflexivity; discriminate.
Qed.

(** * Further properties of the code *)

(** ** Inversion of executions *)

Lemma bind_ret_inv {A B} (m : exec A) (k : A -> exec B) b t :
  bind m k = (Ret b, t) ->
  exists a t1 t2, m = (Ret a, t1) /\ k a = (Ret b, t2) /\ t = (t1 ++ t2)%list.
Proof.
  destruct m as [[a | e |] t1]; cbn [bind]; try discriminate.
  destruct (k a) as [o t2] eqn:Hk. intros [= -> <-].
  exists a, t1, t2. auto.
Qed.

Lemma bind_raise_inv {A B} (m : exec A) (k : A -> exec B) e t :
  bind m k = (Raise e, t) ->
  m = (Raise e, t)
  \/ exists a t1 t2, m = (Ret a, t1) /\ k a = (Raise e, t2)
                     /\ t = (t1 ++ t2)%list.
Proof.
  destruct m as [[a | e' |] t1]; cbn [bind]; try discriminate.
  - destruct (k a) as [o t2] eqn:Hk. intros [= -> <-].
    right. exists a, t1, t2. auto.
  - intros [= -> ->]. left. reflexivity.
Qed.

Lemma lift_ret_inv {A} (r : result A) a t :
  lift r = (Ret a, t) -> r = inr a /\ t = [].
Proof. destruct r; cbn; [discriminate |]. intros [= -> <-]. auto. Qed.

Lemma emit_ret_inv ev u t : emit ev = (Ret u, t) -> t = [ev].
Proof. intros [= _ <-]. reflexivity. Qed.

(** ** The polling loop, by induction on the replies *)

Lemma poll_loop_in_progress_step video_id reply later :
  in_progress reply = true ->
  poll_loop video_id (reply :: later)
  = after [EvGet video_id; EvSleep 30] (poll_loop video_id later).
Proof.
  destruct reply as [e | r]; cbn [in_progress]; [discriminate |].
  intros [Hs Hj]%andb_prop. apply Z.eqb_eq in Hs.
  destruct (json r) as [e | [| | | | | | d]] eqn:Hjson; try discriminate.
  rewrite (poll_loop_200 _ _ _ _ Hs Hjson). cbv zeta.
  cbv zeta in Hj. apply negb_true_iff in Hj.
  apply orb_false_elim in Hj as [Hj Hq]. apply orb_false_elim in Hj as [Hp Hf].
  rewrite Hp, Hf, Hq, bind_emit, after_after. reflexivity.
Qed.

(** X1.  While the service answers with a state that is not terminal the
    loop goes on: after [n] such replies it has polled [n] times, slept
    [30 * n] seconds and is still polling, and what follows is decided by
    the rest of the replies alone.  There is no cap on [n]. *)
Theorem poll_loop_has_no_cap video_id (pending : list (result response)) :
  forallb in_progress pending = true ->
  let n := length pending in
  (forall later,
     poll_loop video_id (pending ++ later)
     = after (waiting video_id n) (poll_loop video_id later))
  /\ poll_loop video_id pending = (Polling, waiting video_id n)
  /\ polls (poll_loop video_id pending) = n
  /\ slept (waiting video_id n) = (30 * Z.of_nat n)%Z.
Proof.
  intros Hall n. subst n.
  assert (Hgo : forall later,
             poll_loop video_id (pending ++ later)
             = after (waiting video_id (length pending))
                 (poll_loop video_id later)).
  { induction pending as [| reply rest IH]; intros later.
    - cbn [app length waiting]. rewrite after_nil. reflexivity.
    - cbn [forallb] in Hall. apply andb_prop in Hall as [Hr Hrest].
      cbn [app length waiting].
      rewrite (poll_loop_in_progress_step _ _ _ Hr), (IH Hrest).
      rewrite after_after. reflexivity. }
  assert (Hstill : poll_loop video_id pending
                   = (Polling, waiting video_id (length pending))).
  { pose proof (Hgo []) as H0. rewrite app_nil_r in H0. rewrite H0.
    unfold after. cbn [poll_loop fst snd]. rewrite app_nil_r. reflexivity. }
  repeat split.
  - exact Hgo.
  - exact Hstill.
  - rewrite Hstill. unfold polls. cbn [snd].
    clear. induction (length pending) as [| n IH]; [reflexivity |].
    cbn [waiting]. rewrite filter_cons_True by reflexivity.
    rewrite filter_cons_False by (cbn; discriminate).
    cbn [length]. rewrite IH. reflexivity.
  - clear. induction (length pending) as [| n IH]; [reflexivity |].
    cbn [waiting slept]. rewrite IH. lia.
Qed.

Lemma poll_loop_has_no_cap_witness :
  let pending := [inr (ok_response (demo_payload "Uploaded"));
                  inr (ok_response (demo_payload "Processing"));
                  inr (ok_response (demo_payload "Processing"))] in
  forallb in_progress pending = true
  /\ poll_loop (VStr "abc") pending
     = (Polling,
        [EvGet (VStr "abc"); EvSleep 30; EvGet (VStr "abc"); EvSleep 30;
         EvGet (VStr "abc"); EvSleep 30]).
Proof.
  intros pending. split; [vm_compute; reflexivity |].
  exact (proj1 (proj2 (poll_loop_has_no_cap (VStr "abc") pending
                         ltac:(vm_compute; reflexivity)))).
Defined.

Lemma poll_loop_returns video_id replies data t :
  poll_loop video_id replies = (Ret data, t) ->
  (exists d, data = VDict d /\ d !! "state" = Some (VStr "Processed"))
  /\ (exists r, In (inr r) replies /\ status_code r = 200%Z
                /\ json r = inr data)
  /\ 1 <= polls (poll_loop video_id replies).
Proof.
  revert t. induction replies as [| reply later IH]; intros t.
  - cbn [poll_loop]. discriminate.
  - destruct reply as [e | r].
    + cbn [poll_loop]. rewrite bind_emit. cbn. discriminate.
    + destruct (Z.eq_dec (status_code r) 200%Z) as [Hs | Hs].
      2:{ rewrite (poll_loop_not_200 _ _ _ Hs). discriminate. }
      destruct (json r) as [e | v] eqn:Hjson.
      { cbn [poll_loop]. rewrite bind_emit, bind_lift_inr, Hs, Hjson.
        cbn. discriminate. }
      destruct v as [| | | | | | d];
        try (cbn [poll_loop];
             rewrite bind_emit, bind_lift_inr, Hs, Hjson; cbn; discriminate).
      rewrite (poll_loop_200 _ _ _ _ Hs Hjson). cbv zeta.
      assert (Hpolls : forall (m : exec value),
                 1 <= polls (after [EvGet video_id] m)).
      { intros m. unfold polls, after. cbn [snd app].
        rewrite filter_cons_True by reflexivity. cbn [length]. lia. }
      destruct (is_str (default VNone (d !! "state")) "Processed") eqn:Hp.
      * intros [= <- <-]. apply is_str_true in Hp.
        repeat split.
        -- exists d. split; [reflexivity |].
           destruct (d !! "state") as [s |]; cbn in Hp; congruence.
        -- exists r. split; [left; reflexivity | auto].
        -- apply Hpolls.
      * destruct (is_str (default VNone (d !! "state")) "Failed");
          [discriminate |].
        destruct (is_str (default VNone (d !! "state")) "Quarantined");
          [discriminate |].
        rewrite bind_emit, after_after.
        destruct (poll_loop video_id later) as [o t'] eqn:Hlater.
        unfold after. cbn [fst snd]. intros [= -> <-].
        destruct (IH t' eq_refl) as (Hd & (r' & Hin & Hr') & _).
        repeat split.
        -- exact Hd.
        -- exists r'. split; [right; exact Hin | exact Hr'].
        -- unfold polls. cbn [snd app].
           rewrite filter_cons_True by reflexivity. cbn [length]. lia.
Qed.

(** X2.  Whatever the replies, a payload that [wait_for_processing] returns
    is a JSON object whose state is [Processed], it is the body of one of
    the replies, answered with status 200, and at least one poll was made
    for it. *)
Theorem wait_for_processing_returns_processed w self video_id data t :
  wait_for_processing w self video_id = (Ret data, t) ->
  (exists d, data = VDict d /\ d !! "state" = Some (VStr "Processed"))
  /\ (exists r, In (inr r) (http_get w) /\ status_code r = 200%Z
                /\ json r = inr data)
  /\ 1 <= polls (wait_for_processing w self video_id).
Proof.
  intros Hrun. pose proof Hrun as Hinv. unfold wait_for_processing in Hinv.
  apply bind_ret_inv in Hinv as (a & t1 & t2 & Htok & Hpoll & ->).
  destruct (poll_loop_returns _ _ _ _ Hpoll) as (Hd & Hr & Hp).
  repeat split; try assumption.
  rewrite Hrun. rewrite Hpoll in Hp. unfold polls in *. cbn [snd] in *.
  rewrite filter_app, length_app. lia.
Qed.

Lemma wait_for_processing_returns_processed_witness :
  let w := demo_world [inr (ok_response (demo_payload "Processing"));
                       inr (ok_response (demo_payload "Processed"))]
             unfenced_reply in
  (exists t, wait_for_processing w demo_service (VStr "abc")
             = (Ret (demo_payload "Processed"), t))
  /\ exists d, demo_payload "Processed" = VDict d
               /\ d !! "state" = Some (VStr "Processed").
Proof.
  intros w.
  assert (Hrun : exists t, wait_for_processing w demo_service (VStr "abc")
                           = (Ret (demo_payload "Processed"), t))
    by (eexists; vm_compute; reflexivity).
  split; [exact Hrun |]. destruct Hrun as [t Hrun].
  exact (proj1 (wait_for_processing_returns_processed w demo_service
                  (VStr "abc") (demo_payload "Processed") t Hrun)).
Defined.

(** ** The tokens of the service *)

Lemma get_access_token_returns w self tok self' t :
  get_access_token w self = (Ret (tok, self'), t) ->
  (arm_token self = Some tok /\ tok <> "" /\ self' = self /\ t = [])
  \/ (env_set (arm_token self) = false /\ credential_token w = inr tok
      /\ self' = set_arm_token self tok /\ t = [EvGetToken]).
Proof.
  unfold get_access_token.
  destruct (arm_token self) as [cached |] eqn:Hc; cbn [env_set].
  - destruct (String.eqb cached "") eqn:Hempty; cbn [negb].
    + rewrite bind_emit.
      destruct (credential_token w) as [e | token]; cbn; [discriminate |].
      intros [= <- <- <-]. right. auto.
    + cbn. intros [= <- <- <-]. left.
      apply String.eqb_neq in Hempty. auto.
  - rewrite bind_emit.
    destruct (credential_token w) as [e | token]; cbn; [discriminate |].
    intros [= <- <- <-]. right. auto.
Qed.

(** X3.  [get_access_token] asks the credential at most once per call, and
    a non-empty token it returned is cached: the next call returns the same
    token without asking.  An empty token is not cached: the next call asks
    again. *)
Theorem arm_token_is_cached w self tok self' t :
  get_access_token w self = (Ret (tok, self'), t) ->
  (t = [] \/ t = [EvGetToken])
  /\ (tok <> "" -> get_access_token w self' = (Ret (tok, self'), []))
  /\ (tok = "" -> get_access_token w self' = (Ret (tok, self'), [EvGetToken])).
Proof.
  intros Hrun.
  destruct (get_access_token_returns _ _ _ _ _ Hrun)
    as [(Hc & Hne & -> & ->) | (Hc & Hcred & -> & ->)].
  - split; [auto |]. split; [intros _; exact Hrun | congruence].
  - split; [auto |]. unfold get_access_token. cbn [arm_token set_arm_token env_set].
    split; intros Htok.
    + apply String.eqb_neq in Htok. rewrite Htok. reflexivity.
    + subst tok. cbn [String.eqb negb]. rewrite bind_emit, Hcred. reflexivity.
Qed.

Lemma arm_token_is_cached_witness :
  let w := demo_world [] unfenced_reply in
  let fresh := {| account_id := Some "set"; location := Some "set";
                  subscription_id := Some "set"; resource_group := Some "set";
                  vi_name := Some "set"; arm_token := None;
                  vi_token := VNone |} in
  get_access_token w fresh = (Ret ("arm", set_arm_token fresh "arm"), [EvGetToken])
  /\ get_access_token w (set_arm_token fresh "arm")
     = (Ret ("arm", set_arm_token fresh "arm"), []).
Proof.
  intros w fresh. split; [reflexivity |].
  apply (arm_token_is_cached w fresh "arm" (set_arm_token fresh "arm")
           [EvGetToken] eq_refl).
  discriminate.
Defined.

Lemma get_account_token_returns w self tok self' t :
  get_account_token w self = (Ret (tok, self'), t) ->
  (truthy (vi_token self) = true /\ tok = vi_token self /\ self' = self
   /\ t = [])
  \/ (truthy (vi_token self) = false
      /\ exists arm self1 t1 r data,
           get_access_token w self = (Ret (arm, self1), t1)
           /\ http_post w GenerateAccessToken = inr r
           /\ status_code r = 200%Z
           /\ json r = inr data
           /\ py_getitem data "accessToken" = inr tok
           /\ self' = set_vi_token self1 tok
           /\ t = (t1 ++ [EvPost GenerateAccessToken])%list).
Proof.
  unfold get_account_token.
  destruct (truthy (vi_token self)) eqn:Hv.
  - intros [= <- <- <-]. left. auto.
  - intros Hrun. right. split; [reflexivity |].
    apply bind_ret_inv in Hrun as ([arm self1] & t1 & t2 & Harm & Hrun & ->).
    cbn [snd] in Hrun. rewrite bind_emit in Hrun.
    destruct (http_post w GenerateAccessToken) as [e | r] eqn:Hpost;
      [discriminate |].
    rewrite bind_lift_inr in Hrun.
    destruct (Z.eq_dec (status_code r) 200%Z) as [Hs | Hs].
    2:{ apply Z.eqb_neq in Hs. rewrite Hs in Hrun. discriminate. }
    rewrite Hs in Hrun. cbn [Z.eqb Pos.eqb negb] in Hrun.
    destruct (json r) as [e | data] eqn:Hjson; [discriminate |].
    rewrite bind_lift_inr in Hrun.
    destruct (py_getitem data "accessToken") as [e | token] eqn:Hitem;
      [discriminate |].
    rewrite bind_lift_inr in Hrun. injection Hrun as <- <- <-.
    exists arm, self1, t1, r, data. repeat split; auto.
Qed.

Lemma token_posts_app t1 t2 :
  token_posts (t1 ++ t2) = token_posts t1 + token_posts t2.
Proof. unfold token_posts. rewrite filter_app, length_app. reflexivity. Qed.

(** X4.  [get_account_token] posts to the token endpoint at most once per
    call and leaves the token it returns in [vi_token]; a token that is
    true (a non-empty string, say) is served from there by the next call,
    which makes no request at all. *)
Theorem account_token_is_cached w self tok self' t :
  get_account_token w self = (Ret (tok, self'), t) ->
  token_posts t <= 1
  /\ (truthy tok = true ->
      vi_token self' = tok
      /\ get_account_token w self' = (Ret (tok, self'), [])).
Proof.
  intros Hrun.
  destruct (get_account_token_returns _ _ _ _ _ Hrun)
    as [(Hv & -> & -> & ->)
       | (Hv & arm & self1 & t1 & r & data & Harm & _ & _ & _ & _ & -> & ->)].
  - split; [vm_compute; lia |]. intros _. split; [reflexivity | exact Hrun].
  - split.
    + rewrite token_posts_app.
      destruct (get_access_token_returns _ _ _ _ _ Harm)
        as [(_ & _ & _ & ->) | (_ & _ & _ & ->)]; vm_compute; lia.
    + intros Htok. split; [reflexivity |].
      unfold get_account_token. cbn [vi_token set_vi_token].
      rewrite Htok. reflexivity.
Qed.

Lemma account_token_is_cached_witness :
  let w := demo_world [] unfenced_reply in
  let fresh := {| account_id := Some "set"; location := Some "set";
                  subscription_id := Some "set"; resource_group := Some "set";
                  vi_name := Some "set"; arm_token := None;
                  vi_token := VNone |} in
  get_account_token w fresh
  = (Ret (VStr "tok", demo_service), [EvGetToken; EvPost GenerateAccessToken])
  /\ get_account_token w demo_service = (Ret (VStr "tok", demo_service), []).
Proof.
  intros w fresh. split; [reflexivity |].
  apply (account_token_is_cached w fresh (VStr "tok") demo_service
           [EvGetToken; EvPost GenerateAccessToken] eq_refl).
  reflexivity.
Defined.

(** X5.  When [upload_video] returns, the id it returns is true (never
    [None], never empty): it is the [id] of the JSON object that the upload
    answered with status 200.  The file was opened and the upload posted,
    in that order, after the account token was obtained. *)
Theorem upload_video_returns w self video_path video_name video_id self' t :
  upload_video w self video_path video_name = (Ret (video_id, self'), t) ->
  truthy video_id = true
  /\ exists tok t0 r d,
       get_account_token w self = (Ret (tok, self'), t0)
       /\ t = (t0 ++ [EvOpen video_path;
                      EvPost (UploadVideo tok video_name)])%list
       /\ open_rb w video_path = inr tt
       /\ http_post w (UploadVideo tok video_name) = inr r
       /\ status_code r = 200%Z
       /\ json r = inr (VDict d)
       /\ d !! "id" = Some video_id.
Proof.
  unfold upload_video. intros Hrun.
  apply bind_ret_inv in Hrun as ([tok self1] & t0 & t2 & Htok & Hrun & ->).
  cbn [fst snd] in Hrun. rewrite bind_emit in Hrun.
  destruct (open_rb w video_path) as [e | []] eqn:Hopen; [discriminate |].
  rewrite bind_lift_inr, bind_emit in Hrun.
  destruct (http_post w (UploadVideo tok video_name)) as [e | r] eqn:Hpost;
    [discriminate |].
  rewrite bind_lift_inr in Hrun.
  destruct (Z.eq_dec (status_code r) 200%Z) as [Hs | Hs].
  2:{ apply Z.eqb_neq in Hs. rewrite Hs in Hrun. discriminate. }
  rewrite Hs in Hrun. cbn [Z.eqb Pos.eqb negb] in Hrun.
  destruct (json r) as [e | data] eqn:Hjson; [discriminate |].
  rewrite bind_lift_inr in Hrun.
  destruct data as [| | | | | | d]; try discriminate.
  cbn [py_get] in Hrun. rewrite bind_lift_inr in Hrun.
  destruct (truthy (default VNone (d !! "id"))) eqn:Hid; [| discriminate].
  cbn [negb] in Hrun. injection Hrun as <- <- <-.
  split; [exact Hid |].
  exists tok, t0, r, d. repeat split; auto.
  destruct (d !! "id") as [v |]; [reflexivity | discriminate].
Qed.

Lemma upload_video_returns_witness :
  let w := demo_world [] unfenced_reply in
  upload_video w demo_service local_filename (VStr "vid_12345678")
  = (Ret (VStr "abc", demo_service),
     [EvOpen local_filename;
      EvPost (UploadVideo (VStr "tok") (VStr "vid_12345678"))])
  /\ truthy (VStr "abc") = true.
Proof.
  intros w. split; [reflexivity |].
  exact (proj1 (upload_video_returns w demo_service local_filename
                  (VStr "vid_12345678") (VStr "abc") demo_service _ eq_refl)).
Defined.

(** ** The extraction node, path by path *)

Lemma new_service_trace w svc t : new_service w = (Ret svc, t) -> t = [].
Proof.
  unfold new_service.
  destruct (negb _); [discriminate |].
  destruct (new_credential w) as [e | []]; cbn; [discriminate |].
  intros [= _ <-]. reflexivity.
Qed.

(** X6.  The configuration is checked before anything else: when one of the
    five environment variables is unset or empty, the extraction node
    returns its failure update with the message of the constructor and has
    made no call, whatever the URL. *)
Theorem missing_configuration_fails_first w (state : dict) :
  forallb env_set [getenv w "AZURE_VI_ACCOUNT_ID"; getenv w "AZURE_VI_LOCATION";
                   getenv w "AZURE_SUBSCRIPTION_ID";
                   getenv w "AZURE_RESOURCE_GROUP"; getenv w "AZURE_VI_NAME"]
  = false ->
  index_video_node w state
  = (Ret (failure_update "Missing Azure Video Indexer environment variables"),
     []).
Proof.
  intros Henv. unfold index_video_node, index_video_body, new_service.
  rewrite Henv. reflexivity.
Qed.

Lemma missing_configuration_fails_first_witness :
  let w := {| getenv := fun k => if String.eqb k "AZURE_VI_NAME" then Some ""
                                 else Some "set";
              new_credential := inr tt; credential_token := inr "arm";
              ydl_download := fun _ _ => inr tt;
              http_post := http_post (demo_world [] unfenced_reply);
              http_get := processed_polls; open_rb := fun _ => inr tt;
              path_exists := fun _ => true; os_remove := fun _ => inr tt;
              azure_clients := inr tt;
              similarity_search := fun _ _ _ => inr [];
              llm_invoke := fun _ _ _ _ => inr unfenced_reply |} in
  index_video_node w demo_inputs
  = (Ret (failure_update "Missing Azure Video Indexer environment variables"),
     []).
Proof.
  intros w. apply (missing_configuration_fails_first w demo_inputs).
  reflexivity.
Defined.

(** X7.  A URL that holds neither [youtube.com] nor [youtu.be] is refused
    before any call leaves the process: nothing is downloaded, uploaded or
    polled, and the failure update carries the message of the refusal. *)
Theorem unsupported_url_makes_no_call w (state : dict) svc url :
  new_service w = (Ret svc, []) ->
  state !! "video_url" = Some (VStr url) ->
  str_contains "youtube.com" url = false ->
  str_contains "youtu.be" url = false ->
  index_video_node w state
  = (Ret (failure_update "Please provide a valid URL for this test."), []).
Proof.
  intros Hsvc Hurl Hy Hb. unfold index_video_node, index_video_body.
  rewrite (bind_returned _ _ _ _ Hsvc), after_nil, Hurl. cbn [from_option id py_in].
  rewrite Hy, bind_lift_inr, Hb, bind_lift_inr. reflexivity.
Qed.

Lemma unsupported_url_makes_no_call_witness :
  let w := demo_world processed_polls unfenced_reply in
  (exists svc, new_service w = (Ret svc, []))
  /\ index_video_node w unsupported_inputs
     = (Ret (failure_update "Please provide a valid URL for this test."), []).
Proof.
  intros w. split; [eexists; reflexivity |].
  eapply (unsupported_url_makes_no_call w unsupported_inputs _
            "https://example.com/video.mp4"); reflexivity.
Defined.



(** ** The shape of what the extraction returns *)

Ltac bind_inv H :=
  apply bind_ret_inv in H as (? & ? & ? & ? & H & ?); cbv beta zeta in H.

Lemma bind_trace_nil {A B} (m : exec A) (k : A -> exec B) :
  m.2 = [] -> (forall a, (k a).2 = []) -> (bind m k).2 = [].
Proof.
  destruct m as [[a | e |] t]; cbn [bind snd]; intros -> Hk; try reflexivity.
  specialize (Hk a). destruct (k a) as [o t']. cbn [snd] in *. exact Hk.
Qed.

Lemma lift_trace_nil {A} (r : result A) : (lift r).2 = [].
Proof. destruct r; reflexivity. Qed.

Lemma texts_of_trace l : (texts_of l).2 = [].
Proof.
  induction l as [| x rest IH]; cbn [texts_of]; [reflexivity |].
  apply bind_trace_nil; [apply lift_trace_nil |]. intros t.
  apply bind_trace_nil; [exact IH | reflexivity].
Qed.

Lemma collect_trace videos : forall transcript ocr,
  (collect videos transcript ocr).2 = [].
Proof.
  induction videos as [| video rest IH]; intros transcript ocr;
    cbn [collect]; [reflexivity |].
  repeat (apply bind_trace_nil;
          [first [apply lift_trace_nil | apply texts_of_trace] | intros ?]).
  apply IH.
Qed.

Lemma extract_data_trace raw : (extract_data raw).2 = [].
Proof.
  unfold extract_data.
  repeat (apply bind_trace_nil;
          [first [apply lift_trace_nil | apply collect_trace] | intros ?]).
  reflexivity.
Qed.

Lemma extract_data_returns raw (update : dict) t :
  extract_data raw = (Ret update, t) ->
  t = []
  /\ exists transcript ocr duration video_id,
       update = {[ "transcript" := VStr transcript;
                   "ocr_text" := VList ocr;
                   "metadata" := VDict {[ "duration" := duration;
                                          "video_id" := video_id;
                                          "platform" := VStr "youtube" ]} ]}.
Proof.
  intros Hrun. split.
  - pose proof (extract_data_trace raw) as Ht. rewrite Hrun in Ht. exact Ht.
  - unfold extract_data in Hrun. do 7 bind_inv Hrun.
    injection Hrun as <- _. eauto.
Qed.

Lemma index_video_body_returns w (state update : dict) t :
  index_video_body w state = (Ret update, t) ->
  exists raw, extract_data raw = (Ret update, []).
Proof.
  unfold index_video_body. intros Hrun. do 7 bind_inv Hrun.
  apply bind_ret_inv in Hrun as (clean & t1 & t2 & Hex & Hret & _).
  injection Hret as <- _.
  match type of Hex with
  | extract_data ?raw = _ => exists raw
  end.
  rewrite Hex. destruct (extract_data_returns _ _ _ Hex) as [-> _].
  reflexivity.
Qed.

(** X9.  The extraction node never raises, and every update it returns, on
    success as on failure, has a [transcript] that is a string and an
    [ocr_text] that is a list.  It never sets [video_metadata],
    [compliance_results], [final_report] or [video_id], and it sets
    [final_status] and [errors] only on failure, to [FAIL] and to the one
    recorded message. *)
Theorem index_video_node_update_shape w (state : dict) :
  (forall e t, index_video_node w state <> (Raise e, t))
  /\ (forall update t,
        index_video_node w state = (Ret update, t) ->
        (exists s, update !! "transcript" = Some (VStr s))
        /\ (exists l, update !! "ocr_text" = Some (VList l))
        /\ update !! "video_metadata" = None
        /\ update !! "compliance_results" = None
        /\ update !! "final_report" = None
        /\ update !! "video_id" = None
        /\ ((update !! "final_status" = None /\ update !! "errors" = None)
            \/ (update !! "final_status" = Some (VStr "FAIL")
                /\ exists msg, update !! "errors" = Some (VList [VStr msg])))).
Proof.
  split.
  - intros e t. unfold index_video_node.
    destruct (index_video_body w state) as [[u | e' |] t']; cbn; discriminate.
  - intros update t Hrun.
    destruct (index_video_node_returns _ _ _ _ Hrun)
      as [Hbody | (e & _ & ->)].
    + destruct (index_video_body_returns _ _ _ _ Hbody) as (raw & Hex).
      destruct (extract_data_returns _ _ _ Hex)
        as (_ & s & l & dur & vid & ->).
      repeat split; eauto.
    + repeat split; eauto.
Qed.

Lemma index_video_node_update_shape_witness :
  let w := demo_world processed_polls unfenced_reply in
  (exists update t, index_video_node w demo_inputs = (Ret update, t))
  /\ exists update,
       (index_video_node w demo_inputs).1 = Ret update
       /\ (exists s, update !! "transcript" = Some (VStr s))
       /\ update !! "video_metadata" = None.
Proof.
  intros w.
  assert (Hrun : exists update t,
             index_video_node w demo_inputs = (Ret update, t))
    by returns_by_computation.
  split; [exact Hrun |]. destruct Hrun as (update & t & Hrun).
  destruct (proj2 (index_video_node_update_shape w demo_inputs) update t Hrun)
    as (Hs & _ & Hmd & _).
  exists update. rewrite Hrun. auto.
Defined.

(** ** The calls of the adjudication node *)

Lemma audit_body_trace (json_loads : string -> result value) w rules md tr ocr :
  exists o, audit_body json_loads w rules md tr ocr
            = (o, [EvLLM rules md tr ocr])
            /\ o <> Polling.
Proof.
  destruct (llm_invoke w rules md tr ocr) as [e | content] eqn:Hllm.
  - exists (Raise e). unfold audit_body. rewrite bind_emit, Hllm.
    split; [reflexivity | discriminate].
  - destruct (decode_content_cases json_loads content) as [[e He] | [v Hv]].
    + exists (Raise e).
      rewrite (audit_body_decode_raises json_loads _ _ _ _ _ content e Hllm He).
      split; [reflexivity | discriminate].
    + destruct v as [| b | z | m e | s | l | d];
        try (eexists;
             rewrite (audit_body_not_object json_loads _ _ _ _ _ content _
                        Hllm Hv) by discriminate;
             split; [reflexivity | discriminate]).
      eexists.
      rewrite (audit_body_returns json_loads _ _ _ _ _ content d Hllm Hv).
      split; [reflexivity | discriminate].
Qed.

(** Every way the adjudication node can end, with the calls it made. *)
Lemma audio_content_node_runs
    (json_loads : string -> result value) w (state : dict) :
  let transcript := default (VStr "") (state !! "transcript") in
  let ocr_text := default (VList []) (state !! "ocr_text") in
  let md := default (VDict ∅) (state !! "video_metadata") in
  let run := audio_content_node json_loads w state in
  (truthy transcript = false /\ run.2 = [] /\ exists u, run.1 = Ret u)
  \/ (truthy transcript = true /\ run.2 = []
      /\ exists e, run.1 = Raise e
           /\ (azure_clients w = inl e
               \/ (azure_clients w = inr tt /\ py_join "" ocr_text = inl e)))
  \/ (truthy transcript = true
      /\ exists joined,
           azure_clients w = inr tt /\ py_join "" ocr_text = inr joined
           /\ ((run.2 = [EvSearch transcript joined 3]
                /\ exists e, run.1 = Raise e
                     /\ similarity_search w transcript joined 3 = inl e)
               \/ (exists docs u,
                     similarity_search w transcript joined 3 = inr docs
                     /\ run.1 = Ret u
                     /\ run.2 = [EvSearch transcript joined 3;
                                 EvLLM (str_join (nl ++ nl) docs) md
                                   transcript ocr_text]))).
Proof.
  intros transcript ocr_text md run. subst run.
  destruct (truthy transcript) eqn:Ht.
  2:{ left. unfold audio_content_node. fold transcript. rewrite Ht.
      cbn. eauto. }
  right.
  destruct (azure_clients w) as [e | []] eqn:Hc.
  { left. unfold audio_content_node. fold transcript. rewrite Ht, Hc.
    cbn. eauto 6. }
  destruct (py_join "" ocr_text) as [e | joined] eqn:Hj.
  { left. unfold audio_content_node. fold transcript ocr_text.
    rewrite Ht, Hc. cbn [negb]. rewrite bind_lift_inr, Hj. cbn. eauto 8. }
  right. split; [reflexivity |]. exists joined. repeat split.
  destruct (similarity_search w transcript joined 3) as [e | docs] eqn:Hs.
  { left. unfold audio_content_node. fold transcript ocr_text.
    rewrite Ht, Hc. cbn [negb].
    rewrite bind_lift_inr, Hj, bind_lift_inr, bind_emit, Hs. cbn. eauto. }
  right.
  rewrite (audio_content_node_reaches_try json_loads w state joined docs
             Ht Hc Hj Hs).
  fold transcript ocr_text md.
  destruct (audit_body_trace json_loads w (str_join (nl ++ nl) docs) md
              transcript ocr_text) as (o & -> & Ho).
  exists docs. destruct o as [u | e |]; [| | congruence].
  - exists u. cbn. auto.
  - eexists. cbn. auto.
Qed.

Lemma llm_calls_bind_le {A B} (m : exec A) (k : A -> exec B) n :
  (forall a, llm_calls (k a) <= n) ->
  llm_calls (bind m k) <= llm_calls m + n.
Proof.
  intros Hk. destruct m as [[a | e |] t]; cbn [bind].
  - specialize (Hk a). destruct (k a) as [o t'].
    rewrite (llm_calls_app o o).
    change (llm_calls (o, t)) with (llm_calls (Ret a, t)). lia.
  - change (llm_calls (@Raise B e, t)) with (llm_calls (@Raise A e, t)). lia.
  - change (llm_calls (@Polling B, t)) with (llm_calls (@Polling A, t)). lia.
Qed.

Lemma audio_content_node_llm_calls
    (json_loads : string -> result value) w (state : dict) :
  llm_calls (audio_content_node json_loads w state) <= 1.
Proof.
  destruct (audio_content_node_runs json_loads w state)
    as [(_ & Ht & _) | [(_ & Ht & _) | (_ & joined & _ & _ & H)]];
    unfold llm_calls; try (rewrite Ht; cbn; lia).
  destruct H as [(Ht & _) | (docs & u & _ & _ & Ht)]; rewrite Ht.
  - vm_compute. lia.
  - rewrite filter_cons_False by (cbn; discriminate).
    rewrite filter_cons_True by reflexivity. cbn. lia.
Qed.

(** X10.  The language model is called at most once in a run of the
    adjudication node and at most once in a run of the whole graph: a reply
    that cannot be used is not asked for again.  When it is called, the
    calls of the node are the rule search, with [k = 3], and then the
    model. *)
Theorem model_is_called_at_most_once
    (json_loads : string -> result value) w (state : dict) :
  llm_calls (audio_content_node json_loads w state) <= 1
  /\ llm_calls (run_graph json_loads w state) <= 1
  /\ (llm_calls (audio_content_node json_loads w state) = 1 ->
      exists joined docs,
        (audio_content_node json_loads w state).2
        = [EvSearch (default (VStr "") (state !! "transcript")) joined 3;
           EvLLM (str_join (nl ++ nl) docs)
             (default (VDict ∅) (state !! "video_metadata"))
             (default (VStr "") (state !! "transcript"))
             (default (VList []) (state !! "ocr_text"))]).
Proof.
  split; [apply audio_content_node_llm_calls |]. split.
  - unfold run_graph.
    pose proof (quiet_index_video_node w state) as Hq. unfold quiet in Hq.
    etransitivity.
    + apply (llm_calls_bind_le _ _ 1). intros u1.
      etransitivity.
      * apply (llm_calls_bind_le _ _ 0). intros u2. reflexivity.
      * pose proof (audio_content_node_llm_calls json_loads w
                      (merge_update state u1)). lia.
    + lia.
  - intros Hone.
    destruct (audio_content_node_runs json_loads w state)
      as [(_ & Ht & _) | [(_ & Ht & _) | (_ & joined & _ & _ & H)]];
      try (unfold llm_calls in Hone; rewrite Ht in Hone; discriminate).
    destruct H as [(Ht & _) | (docs & u & _ & _ & Ht)].
    + unfold llm_calls in Hone. rewrite Ht in Hone. vm_compute in Hone.
      discriminate.
    + exists joined, docs. exact Ht.
Qed.

Lemma model_is_called_at_most_once_witness :
  let run := audio_content_node MiniJson.loads
               (demo_world [] "not json") demo_state in
  llm_calls run = 1
  /\ exists joined docs,
       run.2 = [EvSearch (VStr "Our product cures everything") joined 3;
                EvLLM (str_join (nl ++ nl) docs) (VDict ∅)
                  (VStr "Our product cures everything")
                  (VList [VStr "100% cure"])].
Proof.
  intros run. split; [vm_compute; reflexivity |].
  exact (proj2 (proj2 (model_is_called_at_most_once MiniJson.loads
                         (demo_world [] "not json") demo_state))
           ltac:(vm_compute; reflexivity)).
Defined.

(** X11.  The adjudication node raises only from what precedes its [try]:
    the construction of the clients, the join of [ocr_text] (a [TypeError]
    when an item is not a string) or the rule search.  Such a failure is not
    turned into a [FAIL] update, and the model has not been called. *)
Theorem adjudication_raises_only_before_try
    (json_loads : string -> result value) w (state : dict) e t :
  audio_content_node json_loads w state = (Raise e, t) ->
  let transcript := default (VStr "") (state !! "transcript") in
  let ocr_text := default (VList []) (state !! "ocr_text") in
  truthy transcript = true
  /\ llm_calls (audio_content_node json_loads w state) = 0
  /\ ((azure_clients w = inl e /\ t = [])
      \/ (py_join "" ocr_text = inl e /\ t = [])
      \/ (exists joined,
            py_join "" ocr_text = inr joined
            /\ similarity_search w transcript joined 3 = inl e
            /\ t = [EvSearch transcript joined 3])).
Proof.
  intros Hrun transcript ocr_text.
  destruct (audio_content_node_runs json_loads w state)
    as [(_ & _ & u & Hu) | [(Ht & Htr & e' & He & Hwhy)
                           | (Ht & joined & Hc & Hj & H)]];
    rewrite Hrun in *; cbn [fst snd] in *.
  - discriminate.
  - injection He as <-. subst t.
    split; [exact Ht |]. split; [reflexivity |].
    destruct Hwhy as [Hc | [_ Hj]]; auto.
  - destruct H as [(Htr & e' & He & Hs) | (docs & u & _ & Hu & _)];
      [| discriminate].
    injection He as <-. subst t.
    split; [exact Ht |]. split; [vm_compute; reflexivity |].
    right. right. exists joined. auto.
Qed.

Lemma adjudication_raises_only_before_try_witness :
  let w := with_search (demo_world [] unfenced_reply)
             (fun _ _ _ => inl (Exn "HttpResponseError" "index not found")) in
  audio_content_node MiniJson.loads w demo_state
  = (Raise (Exn "HttpResponseError" "index not found"),
     [EvSearch (VStr "Our product cures everything") "100% cure" 3])
  /\ llm_calls (audio_content_node MiniJson.loads w demo_state) = 0.
Proof.
  intros w. split; [reflexivity |].
  exact (proj1 (proj2 (adjudication_raises_only_before_try MiniJson.loads w
                         demo_state _ _ eq_refl))).
Defined.

(** X12.  A failure of the call to the model itself is caught: the node
    returns [final_status = FAIL] with the message of the exception as its
    one error, after the search and the one call. *)
Theorem model_failure_is_caught
    (json_loads : string -> result value) w (state : dict) joined docs e :
  let transcript := default (VStr "") (state !! "transcript") in
  let ocr_text := default (VList []) (state !! "ocr_text") in
  let rules := str_join (nl ++ nl) docs in
  let md := default (VDict ∅) (state !! "video_metadata") in
  truthy transcript = true ->
  azure_clients w = inr tt ->
  py_join "" ocr_text = inr joined ->
  similarity_search w transcript joined 3 = inr docs ->
  llm_invoke w rules md transcript ocr_text = inl e ->
  audio_content_node json_loads w state
  = (Ret (error_update (str_exn e)),
     [EvSearch transcript joined 3; EvLLM rules md transcript ocr_text]).
Proof.
  intros transcript ocr_text rules md Ht Hc Hj Hs Hllm.
  rewrite (audio_content_node_reaches_try json_loads w state joined docs
             Ht Hc Hj Hs).
  fold transcript ocr_text rules md. unfold audit_body.
  rewrite bind_emit, Hllm. reflexivity.
Qed.

Lemma model_failure_is_caught_witness :
  let w := with_llm (demo_world [] unfenced_reply)
             (fun _ _ _ _ => inl (Exn "RateLimitError" "Too many requests")) in
  audio_content_node MiniJson.loads w demo_state
  = (Ret (error_update "Too many requests"),
     [EvSearch (VStr "Our product cures everything") "100% cure" 3;
      EvLLM "Health claims need evidence." (VDict ∅)
        (VStr "Our product cures everything") (VList [VStr "100% cure"])]).
Proof.
  intros w.
  exact (model_failure_is_caught MiniJson.loads w demo_state "100% cure"
           ["Health claims need evidence."]
           (Exn "RateLimitError" "Too many requests")
           eq_refl eq_refl eq_refl eq_refl eq_refl).
Defined.

(** ** Replies that hold backticks *)

Lemma py_strip_short g :
  String.length g <= 1 -> String.length (py_strip g) <= 1.
Proof.
  destruct g as [| c [| c' rest]]; cbn [String.length]; try lia; intros _.
  - vm_compute. lia.
  - unfold py_strip. cbn [lstrip].
    destruct (is_py_space c) eqn:Hc; [vm_compute; lia |].
    change (String.rev (String c "")) with (String c "").
    cbn [lstrip]. rewrite Hc. cbn. lia.
Qed.

(** X13.  With a decoder that, like [json.loads], yields no object from a
    text of at most one character, a reply that holds two consecutive
    backticks never gives a verdict: the guard sends it to the pattern,
    whose group holds at most one character, and the node returns
    [final_status = FAIL] with one recorded error. *)
Theorem backticks_always_fail
    (json_loads : string -> result value) w (state : dict) joined docs
    content :
  let transcript := default (VStr "") (state !! "transcript") in
  let ocr_text := default (VList []) (state !! "ocr_text") in
  let rules := str_join (nl ++ nl) docs in
  let md := default (VDict ∅) (state !! "video_metadata") in
  (forall s d, String.length s <= 1 -> json_loads s <> inr (VDict d)) ->
  truthy transcript = true ->
  azure_clients w = inr tt ->
  py_join "" ocr_text = inr joined ->
  similarity_search w transcript joined 3 = inr docs ->
  llm_invoke w rules md transcript ocr_text = inr content ->
  str_contains "``" content = true ->
  exists msg,
    audio_content_node json_loads w state
    = (Ret (error_update msg),
       [EvSearch transcript joined 3; EvLLM rules md transcript ocr_text]).
Proof.
  intros transcript ocr_text rules md Hdec Ht Hc Hj Hs Hllm Hticks.
  rewrite (audio_content_node_reaches_try json_loads w state joined docs
             Ht Hc Hj Hs).
  fold transcript ocr_text rules md.
  destruct (decode_content_fenced json_loads content Hticks)
    as [Hraise | (g & Hg & Hlift)].
  - rewrite (audit_body_decode_raises json_loads _ _ _ _ _ content _
               Hllm Hraise).
    eexists. reflexivity.
  - destruct (json_loads (py_strip g)) as [e | v] eqn:Hv.
    + rewrite (audit_body_decode_raises json_loads _ _ _ _ _ content e
                 Hllm Hlift).
      eexists. reflexivity.
    + assert (Hnot : forall d, v <> VDict d).
      { intros d ->. exact (Hdec _ d (py_strip_short g Hg) Hv). }
      rewrite (audit_body_not_object json_loads _ _ _ _ _ content v
                 Hllm Hlift Hnot).
      eexists. reflexivity.
Qed.

Lemma mini_json_short_text s d :
  String.length s <= 1 -> MiniJson.loads s <> inr (VDict d).
Proof.
  destruct s as [| c [| c' rest]]; cbn [String.length]; try lia; intros _.
  - vm_compute. discriminate.
  - destruct c as [[] [] [] [] [] [] [] []]; vm_compute; discriminate.
Qed.

Lemma backticks_always_fail_witness :
  str_contains "``" fenced_reply = true
  /\ exists msg,
       (audio_content_node MiniJson.loads (demo_world [] fenced_reply)
          demo_state).1 = Ret (error_update msg).
Proof.
  split; [vm_compute; reflexivity |].
  destruct (backticks_always_fail MiniJson.loads
              (demo_world [] fenced_reply) demo_state "100% cure"
              ["Health claims need evidence."] fenced_reply
              mini_json_short_text eq_refl eq_refl eq_refl eq_refl eq_refl
              ltac:(vm_compute; reflexivity)) as [msg Hrun].
  exists msg. rewrite Hrun. reflexivity.
Defined.
